(** * Wheel Strategy Tracker: premium aggregation and position updates

    A shallow embedding of the period-accounting queries of
    [src/lib/database.py] ([get_first_trade_date], [get_current_week_number],
    [get_premium_summary], [get_top_performers]) and of the assignment
    handler of [src/components/trade_dialog.py] ([_submit_assignment]).

    Modelling conventions.
    - SQLite [REAL] and Python [float] values are exact rationals ([Q]);
      equalities between amounts are stated with [==].
    - A [datetime.date] is a record of year, month and day; the ordinal
      arithmetic is the proleptic Gregorian one of the [datetime] module.
      Years range over [Z]: the bounds [MINYEAR]/[MAXYEAR] are not modelled.
    - SQLite texts [YYYY-MM-DD] are compared bytewise by the store; on such
      zero-padded texts that is the lexicographic order on (year, month,
      day), which is how [iso_leb] compares them.  Year texts ([strftime
      '%Y'], [str(year)]) are identified with the year number.
    - The wall clock is an argument: [today] is Python's [date.today()],
      [now] is SQLite's ['now'] / [CURRENT_TIMESTAMP].
    - Rows are typed: [opened_at] is always a timestamp and [premium] a
      number, as every insertion of the source writes them; SQL NULLs only
      arise from aggregates over no rows.
    - Python exceptions are values of [result]. *)

From Stdlib Require Import ZArith QArith List String Ascii Bool Lia.
From Stdlib Require Import Permutation Sorted DecimalString.
Import ListNotations.
Open Scope Z_scope.

(** ** Dates: the part of [datetime.date] the source relies on *)

Module PyDate.

Record date := mkdate { year : Z; month : Z; day : Z }.

(** [calendar.isleap] *)
Definition isleap (y : Z) : bool :=
  (y mod 4 =? 0) && (negb (y mod 100 =? 0) || (y mod 400 =? 0)).

Definition DAYS_IN_MONTH : list Z :=
  [-1; 31; 28; 31; 30; 31; 30; 31; 31; 30; 31; 30; 31].

Definition DAYS_BEFORE_MONTH : list Z :=
  [-1; 0; 31; 59; 90; 120; 151; 181; 212; 243; 273; 304; 334].

(** Indexing a module-level table by a month number. *)
Definition tbl (t : list Z) (m : Z) : Z := nth (Z.to_nat m) t (-1).

Definition b2z (b : bool) : Z := if b then 1 else 0.

Definition days_before_year (y : Z) : Z :=
  let y' := y - 1 in
  y' * 365 + y' / 4 - y' / 100 + y' / 400.

Definition year_length (y : Z) : Z := if isleap y then 366 else 365.

Definition days_in_month (y m : Z) : Z :=
  if (m =? 2) && isleap y then 29 else tbl DAYS_IN_MONTH m.

Definition days_before_month (y m : Z) : Z :=
  tbl DAYS_BEFORE_MONTH m + b2z ((2 <? m) && isleap y).

Definition ymd2ord (y m d : Z) : Z :=
  days_before_year y + days_before_month y m + d.

Definition DI400Y : Z := 146097.
Definition DI100Y : Z := 36524.
Definition DI4Y : Z := 1461.

(** Month and day of the [n]-th day (0-based) of a year. *)
Definition ord2md (leapyear : bool) (n : Z) : Z * Z :=
  let month := Z.shiftr (n + 50) 5 in
  let preceding := tbl DAYS_BEFORE_MONTH month + b2z ((2 <? month) && leapyear) in
  if n <? preceding then
    let month' := month - 1 in
    let preceding' :=
      preceding - (tbl DAYS_IN_MONTH month' + b2z ((month' =? 2) && leapyear)) in
    (month', n - preceding' + 1)
  else (month, n - preceding + 1).

Definition ord2ymd (n0 : Z) : date :=
  let n := n0 - 1 in
  let n400 := n / DI400Y in
  let n := n mod DI400Y in
  let y := n400 * 400 + 1 in
  let n100 := n / DI100Y in
  let n := n mod DI100Y in
  let n4 := n / DI4Y in
  let n := n mod DI4Y in
  let n1 := n / 365 in
  let n := n mod 365 in
  let y := y + n100 * 100 + n4 * 4 + n1 in
  if (n1 =? 4) || (n100 =? 4) then mkdate (y - 1) 12 31
  else
    let leapyear := (n1 =? 3) && (negb (n4 =? 24) || (n100 =? 3)) in
    let (m, d) := ord2md leapyear n in
    mkdate y m d.

Definition toordinal (d : date) : Z := ymd2ord (year d) (month d) (day d).
Definition fromordinal (n : Z) : date := ord2ymd n.

(** [(a - b).days] *)
Definition days_between (a b : date) : Z := toordinal a - toordinal b.

(** [d + timedelta(days=n)] *)
Definition add_days (d : date) (n : Z) : date := fromordinal (toordinal d + n).

(** [d.replace(month=m, day=dd)] *)
Definition replace_month_day (d : date) (m dd : Z) : date := mkdate (year d) m dd.

(** A date the [date] constructor accepts (year range aside). *)
Definition valid_date (d : date) : bool :=
  (1 <=? month d) && (month d <=? 12) &&
  (1 <=? day d) && (day d <=? days_in_month (year d) (month d)).

(** Order of the texts [YYYY-MM-DD]. *)
Definition iso_leb (a b : date) : bool :=
  (year a <? year b) ||
  ((year a =? year b) &&
   ((month a <? month b) || ((month a =? month b) && (day a <=? day b)))).

End PyDate.

Import PyDate.

(** ** Exceptions *)

Inductive exn := ZeroDivisionError.

Inductive result (A : Type) : Type :=
| Ok (a : A)
| Raise (e : exn).

Arguments Ok {A} a.
Arguments Raise {A} e.

Definition bind {A B : Type} (r : result A) (k : A -> result B) : result B :=
  match r with
  | Ok a => k a
  | Raise e => Raise e
  end.

Notation "x <- r ;; k" := (bind r (fun x => k))
  (at level 61, r at next level, right associativity).

(** Python's [a / b] with an integer divisor. *)
Definition truediv (a : Q) (b : Z) : result Q :=
  if b =? 0 then Raise ZeroDivisionError else Ok (a / inject_Z b)%Q.

(** ** The ledger: rows of the [positions] and [trades] tables *)

Inductive TradeType := CSP | CC | ASSIGNMENT | CLOSE | ROLL | BUY | SELL.

Inductive Status := OPEN | CLOSED | EXPIRED | ASSIGNED.

Record timestamp := mktimestamp {
  ts_date : date;
  ts_hour : Z;
  ts_minute : Z;
  ts_second : Z
}.

Record Trade := mkTrade {
  trade_id : Z;
  position_id : Z;
  trade_type : TradeType;
  ticker : string;
  strike : option Q;
  expiration : option date;
  premium : Q;
  quantity : Z;
  delta : option Q;
  status : Status;
  notes : option string;
  opened_at : timestamp;
  closed_at : option timestamp
}.

Record Position := mkPosition {
  pos_id : Z;
  pos_ticker : string;
  shares_owned : Z;
  cost_basis : Q;
  current_price : Q
}.

Record Database := mkDatabase {
  positions : list Position;
  trades : list Trade
}.

(** [date.today()] and SQLite's ['now']. *)
Record Clock := mkClock {
  date_today : date;
  sql_now : timestamp
}.

(** ** The SQL fragments the queries are built from *)

(** [date(opened_at)] *)
Definition sql_date (ts : timestamp) : date := ts_date ts.

(** [strftime('%Y', ts)] *)
Definition strftime_Y (ts : timestamp) : Z := year (ts_date ts).

(** [strftime('%Y-%m', ts)] *)
Definition strftime_Ym (ts : timestamp) : Z * Z :=
  (year (ts_date ts), month (ts_date ts)).

Definition ym_eqb (a b : Z * Z) : bool :=
  (fst a =? fst b) && (snd a =? snd b).

(** [type IN ('CC', 'CSP')] *)
Definition type_in_cc_csp (t : Trade) : bool :=
  match trade_type t with
  | CC | CSP => true
  | _ => false
  end.

(** [status != 'OPEN'] *)
Definition status_not_open (t : Trade) : bool :=
  match status t with
  | OPEN => false
  | _ => true
  end.

(** [premium * quantity * 100] *)
Definition premium_amount (t : Trade) : Q :=
  (premium t * inject_Z (quantity t) * 100)%Q.

Definition Qsum (l : list Q) : Q := fold_right Qplus 0%Q l.

(** [SUM(...)]: NULL over no rows. *)
Definition sql_sum (l : list Q) : option Q :=
  match l with
  | [] => None
  | _ => Some (Qsum l)
  end.

(** [COALESCE(x, d)] *)
Definition coalesce (x : option Q) (d : Q) : Q :=
  match x with
  | Some v => v
  | None => d
  end.

(** [MIN(date(...))]: NULL over no rows. *)
Fixpoint sql_min (l : list date) : option date :=
  match l with
  | [] => None
  | d :: l' =>
      match sql_min l' with
      | None => Some d
      | Some m => Some (if iso_leb d m then d else m)
      end
  end.

(** [SELECT COALESCE(SUM(premium * quantity * 100), 0) FROM trades WHERE
    type IN ('CC', 'CSP') AND status != 'OPEN' AND <cond>] *)
Definition select_premium_total (cond : Trade -> bool) (rows : list Trade) : Q :=
  coalesce
    (sql_sum
       (map premium_amount
          (filter (fun t => type_in_cc_csp t && status_not_open t && cond t) rows)))
    0%Q.

Section GroupBy.
Context {K : Type} (K_dec : forall a b : K, {a = b} + {a <> b}).

Definition key_is (key : Trade -> K) (k : K) (t : Trade) : bool :=
  if K_dec (key t) k then true else false.

(** [SELECT key, COALESCE(SUM(premium * quantity * 100), 0) ... WHERE
    type IN ('CC', 'CSP') AND status != 'OPEN' AND <cond> GROUP BY key]:
    one row per distinct key among the selected rows. *)
Definition select_premium_group_by
    (key : Trade -> K) (cond : Trade -> bool) (rows : list Trade) : list (K * Q) :=
  let selected :=
    filter (fun t => type_in_cc_csp t && status_not_open t && cond t) rows in
  map (fun k =>
         (k, coalesce
               (sql_sum (map premium_amount (filter (key_is key k) selected)))
               0%Q))
      (nodup K_dec (map key selected)).
End GroupBy.

Section OrderBy.
Context {A : Type} (before : A -> A -> bool).

Fixpoint insert_by (x : A) (l : list A) : list A :=
  match l with
  | [] => [x]
  | y :: l' => if before x y then x :: l else y :: insert_by x l'
  end.

(** [ORDER BY]: a stable sort, [before x y] when [x] may precede [y]. *)
Fixpoint order_by (l : list A) : list A :=
  match l with
  | [] => []
  | x :: l' => insert_by x (order_by l')
  end.
End OrderBy.

(** [LIMIT n]: a negative [n] means no limit. *)
Definition sql_limit {A : Type} (n : Z) (l : list A) : list A :=
  if n <? 0 then l else firstn (Z.to_nat n) l.

(** ** Python strings and dicts

    [strip] and [upper] act on ASCII text. *)

Definition is_space (c : ascii) : bool :=
  let n := nat_of_ascii c in
  ((9 <=? n) && (n <=? 13) || (28 <=? n) && (n <=? 32))%nat.

Fixpoint lstrip (s : string) : string :=
  match s with
  | String c s' => if is_space c then lstrip s' else s
  | EmptyString => EmptyString
  end.

Fixpoint rstrip (s : string) : string :=
  match s with
  | String c s' =>
      match rstrip s' with
      | EmptyString => if is_space c then EmptyString else String c EmptyString
      | r => String c r
      end
  | EmptyString => EmptyString
  end.

(** [s.strip()] *)
Definition strip (s : string) : string := rstrip (lstrip s).

Definition upper_ascii (c : ascii) : ascii :=
  let n := nat_of_ascii c in
  if ((97 <=? n) && (n <=? 122))%nat then ascii_of_nat (n - 32) else c.

(** [s.upper()] *)
Fixpoint upper (s : string) : string :=
  match s with
  | String c s' => String (upper_ascii c) (upper s')
  | EmptyString => EmptyString
  end.

(** [d[k] = v] on an insertion-ordered dict. *)
Fixpoint dict_set (d : list (Z * Q)) (k : Z) (v : Q) : list (Z * Q) :=
  match d with
  | [] => [(k, v)]
  | (k', v') :: d' => if k' =? k then (k, v) :: d' else (k', v') :: dict_set d' k v
  end.


(** ** [Database]: positions *)

Definition get_position (db : Database) (tk : string) : option Position :=
  find (fun p => String.eqb (pos_ticker p) (upper tk)) (positions db).

(** The rowid an [AUTOINCREMENT] column hands out next. *)
Definition next_rowid (ids : list Z) : Z := fold_right Z.max 0 ids + 1.

Definition create_position (db : Database) (tk : string) (shares : Z) (cb : Q)
  : Z * Database :=
  let rowid := next_rowid (map pos_id (positions db)) in
  (rowid,
   mkDatabase (positions db ++ [mkPosition rowid (upper tk) shares cb 0%Q]) (trades db)).

Definition set_opt {A : Type} (o : option A) (old : A) : A :=
  match o with
  | Some v => v
  | None => old
  end.

Definition update_position (db : Database) (pid : Z)
    (shares : option Z) (cb : option Q) (price : option Q) : Database :=
  mkDatabase
    (map (fun p =>
            if pos_id p =? pid then
              mkPosition (pos_id p) (pos_ticker p)
                (set_opt shares (shares_owned p))
                (set_opt cb (cost_basis p))
                (set_opt price (current_price p))
            else p)
         (positions db))
    (trades db).

Definition get_or_create_position (db : Database) (tk : string) : Position * Database :=
  match get_position db tk with
  | Some p => (p, db)
  | None =>
      let (rowid, db') := create_position db tk 0 0%Q in
      (mkPosition rowid (upper tk) 0 0%Q 0%Q, db')
  end.

(** ** [Database]: trades *)

Definition create_trade (db : Database) (clk : Clock) (tk : string) (ty : TradeType)
    (k : option Q) (expi : option date) (prem : Q) (qty : Z)
    (dlt : option Q) (nts : option string) : Z * Database :=
  let (position, db1) := get_or_create_position db tk in
  let rowid := next_rowid (map trade_id (trades db1)) in
  (rowid,
   mkDatabase (positions db1)
     (trades db1 ++
      [mkTrade rowid (pos_id position) ty (upper tk) k expi prem qty dlt OPEN nts
         (sql_now clk) None])).

(** ** [Database]: premium calculations *)

Definition get_first_trade_date (db : Database) : option date :=
  sql_min (map (fun t => sql_date (opened_at t)) (filter type_in_cc_csp (trades db))).

Definition get_current_week_number (db : Database) (clk : Clock) : Z :=
  match get_first_trade_date db with
  | None => 0
  | Some first_trade =>
      let today := date_today clk in
      let days_since_start := days_between today first_trade in
      days_since_start / 7 + 1
  end.

Record Summary := mkSummary {
  week : Q;
  week_number : Z;
  month_total : Q;
  ytd : Q;
  yearly : list (Z * Q);
  projected : Q;
  first_trade_date : option date
}.

Definition current_week_start (first_trade : option date) (today : date) : date :=
  match first_trade with
  | Some ft =>
      let weeks_elapsed := days_between today ft / 7 in
      add_days ft (weeks_elapsed * 7)
  | None => today
  end.

Definition get_premium_summary (db : Database) (clk : Clock) : result Summary :=
  let today := date_today clk in
  let first_trade := get_first_trade_date db in
  let week_number := get_current_week_number db clk in
  let current_week_start := current_week_start first_trade today in
  let week_premium :=
    select_premium_total
      (fun t => iso_leb current_week_start (sql_date (opened_at t))) (trades db) in
  let month_premium :=
    select_premium_total
      (fun t => ym_eqb (strftime_Ym (opened_at t)) (strftime_Ym (sql_now clk)))
      (trades db) in
  let start_year :=
    match first_trade with
    | Some ft => year ft
    | None => year today
    end in
  let ytd_premium :=
    select_premium_total (fun t => strftime_Y (opened_at t) =? start_year) (trades db) in
  let yearly_premiums :=
    fold_left (fun d row => dict_set d (fst row) (snd row))
      (order_by (fun a b => fst b <=? fst a)
         (select_premium_group_by Z.eq_dec (fun t => strftime_Y (opened_at t))
            (fun _ => true) (trades db)))
      [] in
  let calendar_projection :=
    let days_elapsed := days_between today (replace_month_day today 1 1) + 1 in
    let days_in_year := if isleap (year today) then 366 else 365 in
    if 0 <? days_elapsed
    then q <- truediv ytd_premium days_elapsed ;; Ok (q * inject_Z days_in_year)%Q
    else Ok 0%Q in
  projected <-
    match first_trade with
    | Some ft =>
        if year ft =? year today then
          let days_elapsed := days_between today ft + 1 in
          let days_remaining_in_year :=
            days_between (mkdate (year today) 12 31) today in
          let total_days := days_elapsed + days_remaining_in_year in
          if 0 <? days_elapsed
          then q <- truediv ytd_premium days_elapsed ;; Ok (q * inject_Z total_days)%Q
          else Ok 0%Q
        else calendar_projection
    | None => calendar_projection
    end ;;
  Ok (mkSummary week_premium week_number month_premium ytd_premium
        yearly_premiums projected first_trade).

Definition get_top_performers (db : Database) (clk : Clock)
    (period : string) (limit : Z) : list (string * Q) :=
  let date_filter :=
    if String.eqb period "mtd"
    then fun t => ym_eqb (strftime_Ym (opened_at t)) (strftime_Ym (sql_now clk))
    else fun t => strftime_Y (opened_at t) =? strftime_Y (sql_now clk) in
  sql_limit limit
    (order_by (fun a b => Qle_bool (snd b) (snd a))
       (select_premium_group_by string_dec ticker date_filter (trades db))).

(** ** The assignment tab of the trade dialog

    The handler's message boxes and its [try]/[except] around the store
    calls are not modelled; an empty ticker leaves the store as it is. *)

Record AssignmentForm := mkAssignmentForm {
  assign_ticker : string;
  assign_shares : Z;
  assign_cost : Q;
  assign_type : Z;
  assign_notes : string
}.

Definition is_empty (s : string) : bool :=
  match s with
  | EmptyString => true
  | _ => false
  end.

Definition _submit_assignment (db : Database) (clk : Clock) (f : AssignmentForm)
  : result Database :=
  let tk := upper (strip (assign_ticker f)) in
  let shares := assign_shares f in
  let cost := assign_cost f in
  let is_put := assign_type f =? 0 in
  let nts := strip (assign_notes f) in
  if is_empty tk then Ok db
  else
    let (position, db1) := get_or_create_position db tk in
    db2 <-
      (if is_put then
         let new_shares := shares_owned position + shares in
         let old_cost := (cost_basis position * inject_Z (shares_owned position))%Q in
         let new_cost := (old_cost + cost * inject_Z shares)%Q in
         avg_cost <- (if 0 <? new_shares then truediv new_cost new_shares else Ok cost) ;;
         Ok (update_position db1 (pos_id position) (Some new_shares) (Some avg_cost) None)
       else
         let new_shares := Z.max 0 (shares_owned position - shares) in
         Ok (update_position db1 (pos_id position) (Some new_shares) None None)) ;;
    Ok (snd (create_trade db2 clk tk ASSIGNMENT (Some cost) None 0%Q (shares / 100) None
               (if is_empty nts then None else Some nts))).

(** ** Vocabulary of the specification *)

(** The day a trade was opened. *)
Definition opened_on (t : Trade) : date := sql_date (opened_at t).

(** A CC/CSP trade that is no longer open: it counts towards premium. *)
Definition realized (t : Trade) : bool := type_in_cc_csp t && status_not_open t.

(** Total realized premium of the rows that satisfy [cond]. *)
Definition realized_premium (cond : Trade -> bool) (rows : list Trade) : Q :=
  Qsum (map premium_amount (filter (fun t => realized t && cond t) rows)).

(** Every [opened_at] of the ledger is a calendar date. *)
Definition ledger_wf (db : Database) : Prop :=
  forall t, In t (trades db) -> valid_date (opened_on t) = true.

(** [a] is the anchor: the earliest day a CC/CSP trade was opened. *)
Definition is_anchor (db : Database) (a : date) : Prop :=
  (exists t, In t (trades db) /\ type_in_cc_csp t = true /\ opened_on t = a) /\
  (forall t, In t (trades db) -> type_in_cc_csp t = true ->
             toordinal a <= toordinal (opened_on t)).

(** The ledger has no CC/CSP trade, hence no anchor. *)
Definition no_anchor (db : Database) : Prop :=
  forall t, In t (trades db) -> type_in_cc_csp t = false.

(** A linear projection of [total] earned over [days_elapsed] days onto
    [span] days, zero when no day has elapsed. *)
Definition linear_projection (total : Q) (days_elapsed span : Z) : Q :=
  if 0 <? days_elapsed
  then (total / inject_Z days_elapsed * inject_Z span)%Q
  else 0%Q.

(** The year whose premium [ytd] reports. *)
Definition start_year (db : Database) (clk : Clock) : Z :=
  match get_first_trade_date db with
  | Some ft => year ft
  | None => year (date_today clk)
  end.



(** Shares and per-share cost basis on record for a ticker; a ticker
    without a position row holds nothing. *)
Definition holdings (db : Database) (tk : string) : Z * Q :=
  match get_position db tk with
  | Some p => (shares_owned p, cost_basis p)
  | None => (0, 0%Q)
  end.

(** ** Sample ledgers *)

Definition at_noon (d : date) : timestamp := mktimestamp d 12 0 0.

Definition sample_trade (i : Z) (ty : TradeType) (tk : string) (prem : Q) (qty : Z)
    (st : Status) (d : date) : Trade :=
  mkTrade i 1 ty tk None None prem qty None st None (at_noon d) None.

Definition sample_position : Position := mkPosition 1 "FLY" 100 (20 # 1) 0.

(** Two covered calls and an open put in January 2026. *)
Definition ledger_jan : Database :=
  mkDatabase [sample_position]
    [sample_trade 1 CC "FLY" (98 # 100) 1 EXPIRED (mkdate 2026 1 6);
     sample_trade 2 CC "RDW" (80 # 100) 2 CLOSED (mkdate 2026 1 14);
     sample_trade 3 CSP "ACB" (40 # 100) 1 OPEN (mkdate 2026 1 20)].

Definition clock_jan15 : Clock :=
  mkClock (mkdate 2026 1 15) (at_noon (mkdate 2026 1 15)).

Definition clock_jan22 : Clock :=
  mkClock (mkdate 2026 1 22) (at_noon (mkdate 2026 1 22)).

(** One covered call opened on 10 March 2026, seen from 1 March 2026. *)
Definition ledger_mar10 : Database :=
  mkDatabase [sample_position]
    [sample_trade 1 CC "FLY" 1 1 EXPIRED (mkdate 2026 3 10)].

Definition clock_mar01 : Clock :=
  mkClock (mkdate 2026 3 1) (at_noon (mkdate 2026 3 1)).

(** A ledger that only holds an assignment record. *)
Definition ledger_assigned : Database :=
  mkDatabase [sample_position]
    [sample_trade 1 ASSIGNMENT "FLY" 0 1 OPEN (mkdate 2026 1 6)].

(** ** [Database]: reading, updating and closing trades *)

Definition status_text (s : Status) : string :=
  match s with
  | OPEN => "OPEN"
  | CLOSED => "CLOSED"
  | EXPIRED => "EXPIRED"
  | ASSIGNED => "ASSIGNED"
  end.

Definition type_text (ty : TradeType) : string :=
  match ty with
  | CSP => "CSP"
  | CC => "CC"
  | ASSIGNMENT => "ASSIGNMENT"
  | CLOSE => "CLOSE"
  | ROLL => "ROLL"
  | BUY => "BUY"
  | SELL => "SELL"
  end.

Definition time_leb (a b : timestamp) : bool :=
  (ts_hour a <? ts_hour b) ||
  ((ts_hour a =? ts_hour b) &&
   ((ts_minute a <? ts_minute b) ||
    ((ts_minute a =? ts_minute b) && (ts_second a <=? ts_second b)))).

(** Order of the texts [YYYY-MM-DD HH:MM:SS]. *)
Definition ts_leb (a b : timestamp) : bool :=
  if iso_leb (ts_date a) (ts_date b)
  then (if iso_leb (ts_date b) (ts_date a) then time_leb a b else true)
  else false.

(** An optional [str] argument tested with [if arg:]; [None] and the empty
    string add no condition to the query. *)
Definition text_filter (arg : option string) (column : string) : bool :=
  match arg with
  | Some s => if is_empty s then true else String.eqb column s
  | None => true
  end.

(** [ORDER BY opened_at DESC] *)
Definition newest_first (rows : list Trade) : list Trade :=
  order_by (fun a b => ts_leb (opened_at b) (opened_at a)) rows.

Definition get_all_trades (db : Database) (status_arg trade_type_arg : option string)
  : list Trade :=
  newest_first
    (filter (fun t => text_filter status_arg (status_text (status t))
                      && text_filter trade_type_arg (type_text (trade_type t)))
       (trades db)).

Definition get_trades_for_position (db : Database) (pid : Z) : list Trade :=
  newest_first (filter (fun t => position_id t =? pid) (trades db)).

Definition update_trade (db : Database) (tid : Z)
    (st : option Status) (closed : option timestamp) : Database :=
  match st, closed with
  | None, None => db
  | _, _ =>
      mkDatabase (positions db)
        (map (fun t =>
                if trade_id t =? tid then
                  mkTrade (trade_id t) (position_id t) (trade_type t) (ticker t)
                    (strike t) (expiration t) (premium t) (quantity t) (delta t)
                    (set_opt st (status t)) (notes t) (opened_at t)
                    (match closed with
                     | Some c => Some c
                     | None => closed_at t
                     end)
                else t)
           (trades db))
  end.

(** [now] is the value of [datetime.now()]. *)
Definition close_trade (db : Database) (now : timestamp) (tid : Z) (st : Status)
  : Database :=
  update_trade db tid (Some st) (Some now).







(** ** The CSP, covered-call and close tabs of the trade dialog *)

Record TradeForm := mkTradeForm {
  form_ticker : string;
  form_strike : Q;
  form_expiration : date;
  form_premium : Q;
  form_quantity : Z;
  form_delta : Q;
  form_notes : string
}.

(** [csp] and [cc] are the widgets of the two tabs; a [trade_type] other
    than ['CSP'] reads the covered-call tab. *)
Definition _submit_trade (db : Database) (clk : Clock) (csp cc : TradeForm)
    (ty : TradeType) : Database :=
  let f := match ty with CSP => csp | _ => cc end in
  let tk := upper (strip (form_ticker f)) in
  let nts := strip (form_notes f) in
  if is_empty tk then db
  else if Qle_bool (form_premium f) 0 then db
  else
    snd (create_trade db clk tk ty (Some (form_strike f)) (Some (form_expiration f))
           (form_premium f) (form_quantity f)
           (if Qeq_bool (form_delta f) 0 then None else Some (form_delta f))
           (if is_empty nts then None else Some nts)).

(** The items of the status combo box of the close tab. *)
Inductive CloseChoice := PickClosed | PickExpired | PickAssigned.

Definition close_choice_status (c : CloseChoice) : Status :=
  match c with
  | PickClosed => CLOSED
  | PickExpired => EXPIRED
  | PickAssigned => ASSIGNED
  end.

Record CloseForm := mkCloseForm {
  close_trade_id : Z;
  close_status : CloseChoice
}.

Definition _submit_close (db : Database) (now : timestamp) (f : CloseForm) : Database :=
  close_trade db now (close_trade_id f) (close_choice_status (close_status f)).

(** ** Consistency of the store *)

(** Ids and tickers are keys, tickers are stored in upper case, and every
    trade points at the position of its ticker. *)
Definition store_ok (db : Database) : Prop :=
  NoDup (map pos_id (positions db)) /\
  NoDup (map pos_ticker (positions db)) /\
  NoDup (map trade_id (trades db)) /\
  (forall p, In p (positions db) -> upper (pos_ticker p) = pos_ticker p) /\
  (forall t, In t (trades db) ->
     exists p, In p (positions db) /\ pos_id p = position_id t /\
               pos_ticker p = ticker t).

Definition empty_store : Database := mkDatabase [] [].

Definition sample_csp_form : TradeForm :=
  mkTradeForm " sofi " (25 # 1) (mkdate 2026 2 20) (29 # 100) 2 (-15 # 100) "".

Definition sample_cc_form : TradeForm :=
  mkTradeForm "fly" (30 # 1) (mkdate 2026 2 20) (98 # 100) 1 (15 # 100) "weekly".

(** A trade row after [UPDATE trades SET status = ?, closed_at = ?]. *)
Definition closed_row (st : Status) (now : timestamp) (t : Trade) : Trade :=
  mkTrade (trade_id t) (position_id t) (trade_type t) (ticker t) (strike t)
    (expiration t) (premium t) (quantity t) (delta t) st (notes t) (opened_at t)
    (Some now).


(** ** [Database]: the settings table

    Each table outside the ledger is passed to and returned by the
    functions that read or write it. [key] is the primary key. *)

Definition key_is_text (key : string) (row : string * string) : bool :=
  String.eqb (fst row) key.

Definition get_setting (tbl : list (string * string)) (key : string) : option string :=
  match find (key_is_text key) tbl with
  | Some row => Some (snd row)
  | None => None
  end.

(** [INSERT OR REPLACE]: the row in conflict is deleted, the new row is added. *)
Definition set_setting (tbl : list (string * string)) (key value : string)
  : list (string * string) :=
  filter (fun row => negb (key_is_text key row)) tbl ++ [(key, value)].

(** [INSERT OR IGNORE] *)
Definition insert_or_ignore (tbl : list (string * string)) (key value : string)
  : list (string * string) :=
  if existsb (key_is_text key) tbl then tbl else tbl ++ [(key, value)].

Definition default_settings : list (string * string) :=
  [("polygon_api_key", ""); ("polygon_tier", "free"); ("theme", "dark")]%string.

(** The part of [_init_schema] that writes rows: the default settings. *)
Definition _init_schema (tbl : list (string * string)) : list (string * string) :=
  fold_left (fun t kv => insert_or_ignore t (fst kv) (snd kv)) default_settings tbl.

(** [d[k] = v] on a dict with text keys. *)
Fixpoint text_dict_set (d : list (string * string)) (k v : string)
  : list (string * string) :=
  match d with
  | [] => [(k, v)]
  | (k', v') :: d' =>
      if String.eqb k' k then (k, v) :: d' else (k', v') :: text_dict_set d' k v
  end.

Definition text_dict_get (d : list (string * string)) (k : string) : option string :=
  match find (key_is_text k) d with
  | Some row => Some (snd row)
  | None => None
  end.

Definition get_all_settings (tbl : list (string * string)) : list (string * string) :=
  fold_left (fun d row => text_dict_set d (fst row) (snd row)) tbl [].

(** ** [Database]: daily snapshots ([snapshot_date] is unique) *)

Record Snapshot := mkSnapshot {
  snap_id : Z;
  snapshot_date : date;
  portfolio_value : Q;
  options_pnl : Q
}.

(** The rows and the largest rowid handed out so far. *)
Record SnapshotTable := mkSnapshotTable {
  snap_rows : list Snapshot;
  snap_seq : Z
}.

(** Equality of the texts [YYYY-MM-DD]. *)
Definition date_eqb (a b : date) : bool :=
  (year a =? year b) && (month a =? month b) && (day a =? day b).

Definition save_snapshot (tbl : SnapshotTable) (clk : Clock) (value pnl : Q)
  : SnapshotTable :=
  let today := date_today clk in
  mkSnapshotTable
    (filter (fun r => negb (date_eqb (snapshot_date r) today)) (snap_rows tbl)
     ++ [mkSnapshot (snap_seq tbl + 1) today value pnl])
    (snap_seq tbl + 1).

(** [date('now', '-N days')]: the modifier built from a negative [days]
    does not parse and the date is NULL. *)
Definition days_ago (clk : Clock) (days : Z) : option date :=
  if days <? 0 then None else Some (add_days (ts_date (sql_now clk)) (- days)).

Definition get_snapshots (tbl : SnapshotTable) (clk : Clock) (days : Z) : list Snapshot :=
  match days_ago clk days with
  | None => []
  | Some since =>
      order_by (fun a b => iso_leb (snapshot_date a) (snapshot_date b))
        (filter (fun r => iso_leb since (snapshot_date r)) (snap_rows tbl))
  end.

(** ** [Database]: portfolio info and milestones *)

Record PortfolioInfo := mkPortfolioInfo {
  info_id : Z;
  started_investing : string;
  philosophy : string;
  options_strategy : string
}.

(** The three texts callers read from the dict [get_portfolio_info] returns. *)
Definition get_portfolio_info (tbl : list PortfolioInfo) : string * string * string :=
  match tbl with
  | row :: _ => (started_investing row, philosophy row, options_strategy row)
  | [] => (""%string, ""%string, ""%string)
  end.

Definition save_portfolio_info (tbl : list PortfolioInfo)
    (started phil strategy : string) : list PortfolioInfo :=
  match tbl with
  | row :: _ =>
      map (fun r =>
             if info_id r =? info_id row
             then mkPortfolioInfo (info_id r) started phil strategy
             else r)
        tbl
  | [] => [mkPortfolioInfo (next_rowid []) started phil strategy]
  end.

Record Milestone := mkMilestone {
  milestone_id : Z;
  amount : Q;
  date_reached : string;
  time_to_reach : string;
  sort_order : Z
}.

Record MilestoneTable := mkMilestoneTable {
  milestone_rows : list Milestone;
  milestone_seq : Z
}.

(** A milestone dict as [save_milestones] reads it with [m.get(key, default)]. *)
Record MilestoneDict := mkMilestoneDict {
  dict_amount : option Q;
  dict_date_reached : option string;
  dict_time_to_reach : option string
}.

Definition get_milestones (tbl : MilestoneTable) : list Milestone :=
  order_by (fun a b => sort_order a <=? sort_order b) (milestone_rows tbl).

(** The [INSERT]s of [for i, m in enumerate(milestones)], from index [i]. *)
Fixpoint insert_milestones (i seq : Z) (ms : list MilestoneDict) : list Milestone :=
  match ms with
  | [] => []
  | m :: rest =>
      mkMilestone (seq + 1) (set_opt (dict_amount m) 0%Q)
        (set_opt (dict_date_reached m) ""%string)
        (set_opt (dict_time_to_reach m) ""%string) i
      :: insert_milestones (i + 1) (seq + 1) rest
  end.

Definition save_milestones (tbl : MilestoneTable) (ms : list MilestoneDict)
  : MilestoneTable :=
  mkMilestoneTable (insert_milestones 0 (milestone_seq tbl) ms)
    (milestone_seq tbl + Z.of_nat (List.length ms)).

(** ** The portfolio card and its edit dialog *)

(** One milestone row of the dialog: amount spin box, date and time fields. *)
Record MilestoneWidgets := mkMilestoneWidgets {
  widget_amount : Q;
  widget_date : string;
  widget_time : string
}.

Record PortfolioStore := mkPortfolioStore {
  info_table : list PortfolioInfo;
  milestone_table : MilestoneTable
}.

(** [EditPortfolioDialog._save] *)
Definition _save (st : PortfolioStore) (started_input philosophy_input : string)
    (milestone_widgets : list MilestoneWidgets) : PortfolioStore :=
  let info := save_portfolio_info (info_table st) (strip started_input)
                (strip philosophy_input) ""%string in
  let milestones :=
    map (fun w => mkMilestoneDict (Some (widget_amount w))
                    (Some (strip (widget_date w))) (Some (strip (widget_time w))))
      (filter (fun w => negb (Qle_bool (widget_amount w) 0)) milestone_widgets) in
  mkPortfolioStore info (save_milestones (milestone_table st) milestones).

(** One row per day, with rowids that are distinct and were handed out. *)
Definition snapshots_ok (tbl : SnapshotTable) : Prop :=
  NoDup (map snapshot_date (snap_rows tbl)) /\
  NoDup (map snap_id (snap_rows tbl)) /\
  forall r, In r (snap_rows tbl) -> snap_id r <= snap_seq tbl.

(** ** The cards ([components/])

    A label is its text and whether it is visible; a layout is the list of
    the rows added to it.  How an amount is printed ([format_currency] of
    [styles.py], the format specification [,.0f]) is a parameter of the
    cards: what they show is stated for any rendering of the amounts. *)

(** [str(n)] and [f"{n}"] of an [int] *)
Definition str (n : Z) : string := NilZero.string_of_int (Z.to_int n).

(** The em dash of an empty row, as its UTF-8 bytes. *)
Definition dash : string :=
  String (ascii_of_nat 226) (String (ascii_of_nat 128)
    (String (ascii_of_nat 148) EmptyString)).

(** [calendar.month_name] *)
Definition month_name : list string :=
  [""; "January"; "February"; "March"; "April"; "May"; "June"; "July";
   "August"; "September"; "October"; "November"; "December"]%string.

(** [value > 0] on a float *)
Definition positive (v : Q) : bool := negb (Qle_bool v 0).

(** [yearly.get(year, 0)] *)
Definition dict_get (d : list (Z * Q)) (k : Z) (default : Q) : Q :=
  match find (fun row => fst row =? k) d with
  | Some row => snd row
  | None => default
  end.

Module PremiumCard.

Record PeriodRow := mkPeriodRow {
  label_text : string;
  value_text : string;
  visible : bool
}.

Record Card := mkCard {
  week_label : PeriodRow;
  month_label : PeriodRow;
  ytd_label : PeriodRow;
  projected_label : PeriodRow;
  year_widgets : list (Z * PeriodRow)
}.

Definition _create_period_row (label value : string) : PeriodRow :=
  mkPeriodRow label value true.

Definition setup_ui : Card :=
  mkCard (_create_period_row "Week" "$0")
         (_create_period_row "January" "$0")
         (_create_period_row "2026 YTD" "$0")
         (_create_period_row "Year-End Projection:" "$0")
         (map (fun y => (y, _create_period_row (str y) "$0")) [2025; 2024; 2023]).

Definition setText (r : PeriodRow) (label value : string) : PeriodRow :=
  mkPeriodRow label value (visible r).

Section Card.
Variable format_currency : Q -> string.

Definition update_data (card : Card) (today : date) (data : Summary) : Card :=
  let this_month := nth (Z.to_nat (month today)) month_name ""%string in
  let week_num := week_number data in
  let first_trade := first_trade_date data in
  let week_label' :=
    if 0 <? week_num
    then setText (week_label card) ("Week " ++ str week_num)
           (format_currency (week data))
    else setText (week_label card) "Week 1" dash in
  let month_label' :=
    if positive (month_total data) || (0 <? week_num)
    then setText (month_label card) this_month (format_currency (month_total data))
    else setText (month_label card) this_month dash in
  let display_year :=
    match first_trade with
    | Some ft => year ft
    | None => year today
    end in
  let ytd_label' :=
    if positive (ytd data) || (0 <? week_num)
    then setText (ytd_label card) (str display_year ++ " YTD")
           (format_currency (ytd data))
    else setText (ytd_label card) (str display_year ++ " YTD") dash in
  let projected_label' :=
    if positive (projected data)
    then setText (projected_label card) (label_text (projected_label card))
           ("Year-End Projection: " ++ format_currency (projected data))
    else setText (projected_label card) (label_text (projected_label card))
           ("Year-End Projection: " ++ dash) in
  let year_widgets' :=
    map (fun entry =>
           let amount := dict_get (yearly data) (fst entry) 0%Q in
           if positive amount
           then (fst entry,
                 mkPeriodRow (label_text (snd entry)) (format_currency amount) true)
           else (fst entry,
                 mkPeriodRow (label_text (snd entry)) (value_text (snd entry)) false))
      (year_widgets card) in
  mkCard week_label' month_label' ytd_label' projected_label' year_widgets'.

End Card.
End PremiumCard.

Module TopPerformersCard.
Section Card.
(** [f"{amount:,.0f}"] *)
Variable format_whole : Q -> string.

Definition _create_performer_row (ticker : string) (amount : Q) : string * string :=
  (ticker, ("$" ++ format_whole amount)%string).

(** The rows of the MTD and of the YTD column after the update. *)
Definition update_data (mtd_performers ytd_performers : list (string * Q))
  : list (string * string) * list (string * string) :=
  (map (fun performer => _create_performer_row (fst performer) (snd performer))
     (firstn 5 mtd_performers),
   map (fun performer => _create_performer_row (fst performer) (snd performer))
     (firstn 5 ytd_performers)).

End Card.
End TopPerformersCard.

Module PortfolioCard.

(** What [refresh_data] adds to the content layout. *)
Inductive Content :=
| Placeholder
| PhilosophyLabel (text : string)
| Grid (started : option string) (rows : list (string * string * string))
| Footer.

Section Card.
Variable format_currency : Q -> string.

Definition refresh_data (st : PortfolioStore) : list Content :=
  let '(started, phil, _) := get_portfolio_info (info_table st) in
  let milestones := get_milestones (milestone_table st) in
  let has_milestones := match milestones with [] => false | _ => true end in
  let has_data := negb (is_empty started) || negb (is_empty phil) || has_milestones in
  if negb has_data then [Placeholder]
  else
    (if negb (is_empty phil) then [PhilosophyLabel phil] else [])
    ++ (if negb (is_empty started) || has_milestones
        then [Grid (if negb (is_empty started) then Some started else None)
                (map (fun m => (format_currency (amount m), date_reached m,
                                time_to_reach m))
                   milestones)]
        else [])
    ++ [Footer].

End Card.
End PortfolioCard.

(** A fresh portfolio store and two rows of the edit dialog, the second one
    left at amount zero. *)
Definition sample_portfolio_store : PortfolioStore :=
  mkPortfolioStore [] (mkMilestoneTable [] 0).

Definition sample_milestone_widgets : list MilestoneWidgets :=
  [mkMilestoneWidgets (100000 # 1) " Jan 2021" "5 Yrs, 8 Mths ";
   mkMilestoneWidgets 0 "" ""].

(** A consistent store: one position and an expired covered call on it. *)
Definition sample_store : Database :=
  mkDatabase [sample_position]
    [sample_trade 1 CC "FLY" (98 # 100) 1 EXPIRED (mkdate 2026 1 6)].

(** * Properties *)

(** ** The calendar *)

Section Calendar.

Lemma isleap_cases (y : Z) :
  (isleap y = true /\ y mod 4 = 0 /\ (y mod 100 <> 0 \/ y mod 400 = 0)) \/
  (isleap y = false /\ (y mod 4 <> 0 \/ (y mod 100 = 0 /\ y mod 400 <> 0))).
Proof.
  unfold isleap.
  destruct (Z.eqb_spec (y mod 4) 0), (Z.eqb_spec (y mod 100) 0),
    (Z.eqb_spec (y mod 400) 0); simpl; intuition lia.
Qed.

Lemma days_before_year_succ (y : Z) :
  days_before_year (y + 1) = days_before_year y + year_length y.
Proof.
  unfold days_before_year, year_length.
  replace (y + 1 - 1) with y by lia.
  destruct (isleap_cases y) as [(-> & H4 & H) | (-> & H)];
    Z.div_mod_to_equations; lia.
Qed.

Lemma days_before_year_mono (y1 y2 : Z) :
  y1 <= y2 -> days_before_year y1 + 365 * (y2 - y1) <= days_before_year y2.
Proof.
  intros H.
  replace y2 with (y1 + Z.of_nat (Z.to_nat (y2 - y1))) by lia.
  induction (Z.to_nat (y2 - y1)) as [| k IH].
  - rewrite Z.add_0_r. lia.
  - replace (y1 + Z.of_nat (S k)) with (y1 + Z.of_nat k + 1) by lia.
    rewrite days_before_year_succ. unfold year_length.
    destruct (isleap (y1 + Z.of_nat k)); lia.
Qed.

Lemma month_cases (m : Z) :
  1 <= m <= 12 ->
  m = 1 \/ m = 2 \/ m = 3 \/ m = 4 \/ m = 5 \/ m = 6 \/
  m = 7 \/ m = 8 \/ m = 9 \/ m = 10 \/ m = 11 \/ m = 12.
Proof. lia. Qed.

Ltac each_month H :=
  let C := fresh "C" in
  pose proof (month_cases _ H) as C;
  repeat (destruct C as [C | C]; [subst | ]); try subst.

Ltac eval_tbl :=
  repeat match goal with
    | |- context [tbl ?t ?m] =>
        let v := eval vm_compute in (tbl t m) in change (tbl t m) with v
    | H : context [tbl ?t ?m] |- _ =>
        let v := eval vm_compute in (tbl t m) in change (tbl t m) with v in H
    end.

Ltac calendar_simpl :=
  eval_tbl;
  cbn [b2z andb orb negb Z.ltb Z.eqb Z.leb Z.compare
       Pos.compare Pos.compare_cont Pos.eqb] in *.

Lemma valid_date_spec (d : date) :
  valid_date d = true <->
  1 <= month d <= 12 /\ 1 <= day d <= days_in_month (year d) (month d).
Proof.
  unfold valid_date. rewrite !andb_true_iff, !Z.leb_le. tauto.
Qed.

Lemma day_of_year_bounds (y m d : Z) :
  1 <= m <= 12 -> 1 <= d <= days_in_month y m ->
  1 <= days_before_month y m + d <= year_length y.
Proof.
  intros Hm Hd. unfold days_before_month, days_in_month, year_length in *.
  each_month Hm; destruct (isleap y); calendar_simpl; lia.
Qed.

Lemma toordinal_year_bounds (d : date) :
  valid_date d = true ->
  days_before_year (year d) < toordinal d <= days_before_year (year d + 1).
Proof.
  rewrite valid_date_spec. intros [Hm Hd].
  pose proof (day_of_year_bounds _ _ _ Hm Hd).
  rewrite days_before_year_succ. unfold toordinal, ymd2ord. lia.
Qed.

Lemma days_before_month_mono (y m1 m2 d1 : Z) :
  1 <= m1 <= 12 -> 1 <= m2 <= 12 -> m1 < m2 ->
  d1 <= days_in_month y m1 ->
  days_before_month y m1 + d1 <= days_before_month y m2.
Proof.
  intros H1 H2 Hlt Hd. unfold days_before_month, days_in_month in *.
  each_month H1; each_month H2; try lia;
    destruct (isleap y); calendar_simpl; lia.
Qed.

(** On valid dates the order of the ISO texts is the order of the days. *)
Lemma iso_leb_toordinal (a b : date) :
  valid_date a = true -> valid_date b = true ->
  iso_leb a b = (toordinal a <=? toordinal b).
Proof.
  intros Va Vb.
  pose proof (toordinal_year_bounds a Va) as Ba.
  pose proof (toordinal_year_bounds b Vb) as Bb.
  apply valid_date_spec in Va, Vb.
  destruct Va as [Ma Da], Vb as [Mb Db].
  unfold iso_leb.
  destruct (Z.ltb_spec (year a) (year b)) as [Hy | Hy]; simpl.
  - symmetry. apply Z.leb_le.
    pose proof (days_before_year_mono (year a + 1) (year b)). lia.
  - destruct (Z.eqb_spec (year a) (year b)) as [Ey | Ny]; simpl.
    + unfold toordinal, ymd2ord. rewrite Ey in *.
      destruct (Z.ltb_spec (month a) (month b)) as [Hm | Hm]; simpl.
      * symmetry. apply Z.leb_le.
        pose proof (days_before_month_mono (year b) (month a) (month b) (day a)).
        lia.
      * destruct (Z.eqb_spec (month a) (month b)) as [Em | Nm]; simpl.
        -- rewrite Em.
           destruct (Z.leb_spec (day a) (day b)); symmetry;
             [apply Z.leb_le | apply Z.leb_gt]; lia.
        -- symmetry. apply Z.leb_gt.
           pose proof (days_before_month_mono (year b) (month b) (month a) (day b)).
           lia.
    + symmetry. apply Z.leb_gt.
      pose proof (days_before_year_mono (year b + 1) (year a)). lia.
Qed.

Lemma forallb_below (P : Z -> bool) (N : nat) :
  forallb P (map Z.of_nat (seq 0 N)) = true ->
  forall n, 0 <= n < Z.of_nat N -> P n = true.
Proof.
  intros H n Hn. rewrite forallb_forall in H. apply H.
  apply in_map_iff. exists (Z.to_nat n). split; [lia |].
  apply in_seq. lia.
Qed.

(** The month search of [_ord2ymd], checked on every day of a year. *)
Lemma ord2md_spec (leap : bool) (n : Z) :
  0 <= n < 365 + b2z leap ->
  let (m, d) := ord2md leap n in
  1 <= m <= 12 /\
  1 <= d <= (if (m =? 2) && leap then 29 else tbl DAYS_IN_MONTH m) /\
  tbl DAYS_BEFORE_MONTH m + b2z ((2 <? m) && leap) + d = n + 1.
Proof.
  intros Hn.
  pose (P := fun lp k =>
               let (m, d) := ord2md lp k in
               (1 <=? m) && (m <=? 12) && (1 <=? d) &&
               (d <=? (if (m =? 2) && lp then 29 else tbl DAYS_IN_MONTH m)) &&
               (tbl DAYS_BEFORE_MONTH m + b2z ((2 <? m) && lp) + d =? k + 1)).
  assert (H : P leap n = true).
  { destruct leap; simpl in Hn.
    - apply (forallb_below (P true) 366); [vm_compute; reflexivity | lia].
    - apply (forallb_below (P false) 365); [vm_compute; reflexivity | lia]. }
  unfold P in H. destruct (ord2md leap n) as [m d].
  rewrite !andb_true_iff, !Z.leb_le, Z.eqb_eq in H. tauto.
Qed.

Lemma fromordinal_spec (n : Z) :
  valid_date (fromordinal n) = true /\ toordinal (fromordinal n) = n.
Proof.
  unfold fromordinal, ord2ymd, DI400Y, DI100Y, DI4Y.
  set (n400 := (n - 1) / 146097).
  set (r400 := (n - 1) mod 146097).
  set (n100 := r400 / 36524).
  set (r100 := r400 mod 36524).
  set (n4 := r100 / 1461).
  set (r4 := r100 mod 1461).
  set (n1 := r4 / 365).
  set (r1 := r4 mod 365).
  set (y := n400 * 400 + 1 + n100 * 100 + n4 * 4 + n1).
  destruct ((n1 =? 4) || (n100 =? 4)) eqn:Hlast.
  - assert (Hdby : days_before_year y = n).
    { apply orb_true_iff in Hlast. rewrite !Z.eqb_eq in Hlast.
      unfold days_before_year. subst y r1 n1 r4 n4 r100 n100 r400 n400.
      Z.div_mod_to_equations. lia. }
    split.
    + unfold valid_date, days_in_month. simpl. reflexivity.
    + unfold toordinal, ymd2ord, days_before_month. cbn [year month day].
      pose proof (days_before_year_succ (y - 1)) as Hs.
      replace (y - 1 + 1) with y in Hs by lia.
      unfold year_length in Hs.
      destruct (isleap (y - 1)); calendar_simpl; lia.
  - apply orb_false_iff in Hlast. rewrite !Z.eqb_neq in Hlast.
    assert (Hdby : days_before_year y = n - 1 - r1).
    { unfold days_before_year. subst y r1 n1 r4 n4 r100 n100 r400 n400.
      Z.div_mod_to_equations. lia. }
    set (leapyear := (n1 =? 3) && (negb (n4 =? 24) || (n100 =? 3))).
    assert (Hleap : leapyear = isleap y).
    { subst leapyear.
      destruct (isleap_cases y) as [(-> & H4 & H) | (-> & H)];
        destruct (Z.eqb_spec n1 3), (Z.eqb_spec n4 24), (Z.eqb_spec n100 3);
        simpl; try reflexivity; exfalso;
        subst y r1 n1 r4 n4 r100 n100 r400 n400;
        Z.div_mod_to_equations; lia. }
    assert (Hr : 0 <= r1 < 365 + b2z leapyear).
    { subst r1. pose proof (Z.mod_pos_bound r4 365). destruct leapyear; simpl; lia. }
    pose proof (ord2md_spec leapyear r1 Hr) as Hmd.
    destruct (ord2md leapyear r1) as [m d].
    destruct Hmd as (Hm & Hd & Hsum). rewrite Hleap in *.
    split.
    + apply valid_date_spec. cbn [year month day]. unfold days_in_month. tauto.
    + unfold toordinal, ymd2ord, days_before_month. cbn [year month day]. lia.
Qed.

Lemma iso_leb_antisym (a b : date) :
  iso_leb a b = true -> iso_leb b a = true -> a = b.
Proof.
  destruct a as [ya ma da], b as [yb mb db]. unfold iso_leb. cbn [year month day].
  rewrite !orb_true_iff, !andb_true_iff, !orb_true_iff, !andb_true_iff,
    !Z.ltb_lt, !Z.eqb_eq, !Z.leb_le.
  intros H1 H2. f_equal; lia.
Qed.

Lemma toordinal_inj (a b : date) :
  valid_date a = true -> valid_date b = true ->
  toordinal a = toordinal b -> a = b.
Proof.
  intros Va Vb E.
  apply iso_leb_antisym; rewrite iso_leb_toordinal by assumption;
    apply Z.leb_le; lia.
Qed.

Lemma iso_leb_add_days (a d : date) (k : Z) :
  valid_date d = true ->
  iso_leb (add_days a k) d = (toordinal a + k <=? toordinal d).
Proof.
  intros Vd. unfold add_days.
  destruct (fromordinal_spec (toordinal a + k)) as [V E].
  rewrite iso_leb_toordinal by assumption. now rewrite E.
Qed.

(** Day of the year, counting 1 January as 1. *)
Lemma day_of_year (d : date) :
  valid_date d = true ->
  1 <= toordinal d - toordinal (mkdate (year d) 1 1) + 1 <= year_length (year d).
Proof.
  rewrite valid_date_spec. intros [Hm Hd].
  pose proof (day_of_year_bounds _ _ _ Hm Hd).
  assert (E : toordinal (mkdate (year d) 1 1) = days_before_year (year d) + 1).
  { unfold toordinal, ymd2ord, days_before_month. cbn [year month day].
    calendar_simpl. lia. }
  rewrite E. unfold toordinal, ymd2ord. lia.
Qed.

End Calendar.

Example toordinal_2026_01_06 : toordinal (mkdate 2026 1 6) = 739622.
Proof. reflexivity. Qed.

Example fromordinal_leap_day : fromordinal (toordinal (mkdate 2024 2 29) + 1) = mkdate 2024 3 1.
Proof. reflexivity. Qed.

Example add_days_over_new_year : add_days (mkdate 2025 12 30) 7 = mkdate 2026 1 6.
Proof. reflexivity. Qed.

(** ** The anchor date *)

Lemma sql_min_none (l : list date) : sql_min l = None <-> l = [].
Proof.
  destruct l as [| d l]; simpl; [tauto |].
  destruct (sql_min l); split; discriminate.
Qed.

Lemma sql_min_in (l : list date) (m : date) : sql_min l = Some m -> In m l.
Proof.
  revert m. induction l as [| d l IH]; simpl; intros m H; [discriminate |].
  destruct (sql_min l) as [m' |].
  - injection H as <-. destruct (iso_leb d m'); auto.
  - injection H as <-. auto.
Qed.

Lemma sql_min_le (l : list date) (m : date) :
  (forall d, In d l -> valid_date d = true) ->
  sql_min l = Some m ->
  forall d, In d l -> toordinal m <= toordinal d.
Proof.
  revert m. induction l as [| x l IH]; simpl; intros m V H d Hd; [tauto |].
  destruct (sql_min l) as [m' |] eqn:E.
  - assert (Vm' : valid_date m' = true) by (apply V; right; now apply sql_min_in).
    assert (Hx : iso_leb x m' = (toordinal x <=? toordinal m'))
      by (apply iso_leb_toordinal; auto).
    specialize (IH m' (fun d0 H0 => V d0 (or_intror H0)) eq_refl).
    injection H as <-. rewrite Hx.
    destruct (Z.leb_spec (toordinal x) (toordinal m')) as [L | L];
      destruct Hd as [<- | Hd]; try lia; specialize (IH d Hd); lia.
  - apply sql_min_none in E. subst l. injection H as <-.
    destruct Hd as [<- | []]. lia.
Qed.

Lemma first_trade_date_none (db : Database) :
  get_first_trade_date db = None <-> no_anchor db.
Proof.
  unfold get_first_trade_date, no_anchor. rewrite sql_min_none. split.
  - intros H t Ht. destruct (type_in_cc_csp t) eqn:E; [| reflexivity].
    assert (In (sql_date (opened_at t))
              (map (fun t => sql_date (opened_at t))
                 (filter type_in_cc_csp (trades db))))
      by (apply in_map_iff; exists t; split; [reflexivity | apply filter_In; auto]).
    rewrite H in *. contradiction.
  - intros H. destruct (filter type_in_cc_csp (trades db)) as [| t l] eqn:E;
      [reflexivity |].
    assert (Ht : In t (filter type_in_cc_csp (trades db))) by (rewrite E; left; auto).
    apply filter_In in Ht. destruct Ht as [Ht1 Ht2].
    rewrite (H t Ht1) in Ht2. discriminate.
Qed.

Lemma first_trade_date_anchor (db : Database) (a : date) :
  ledger_wf db -> get_first_trade_date db = Some a -> is_anchor db a.
Proof.
  unfold get_first_trade_date, ledger_wf, is_anchor. intros W H. split.
  - apply sql_min_in, in_map_iff in H. destruct H as (t & E & Ht).
    apply filter_In in Ht. exists t. unfold opened_on. tauto.
  - intros t Ht Hty. eapply sql_min_le; [| exact H |].
    + intros d Hd. apply in_map_iff in Hd. destruct Hd as (t' & <- & Ht').
      apply filter_In in Ht'. apply W. tauto.
    + apply in_map_iff. exists t. split; [reflexivity |]. apply filter_In. auto.
Qed.

(** With an anchor the query finds a date, on the anchor's day. *)
Lemma anchor_first_trade_date (db : Database) (a : date) :
  ledger_wf db -> is_anchor db a ->
  exists m, get_first_trade_date db = Some m /\ toordinal m = toordinal a.
Proof.
  intros W [(t & Ht & Hty & Ha) Hmin].
  destruct (get_first_trade_date db) as [m |] eqn:E.
  - exists m. split; [reflexivity |].
    destruct (first_trade_date_anchor db m W E) as [(t' & Ht' & Hty' & Hm) Hmin'].
    specialize (Hmin t' Ht' Hty'). specialize (Hmin' t Ht Hty).
    rewrite Hm in Hmin. rewrite Ha in Hmin'. lia.
  - apply first_trade_date_none in E. rewrite (E t Ht) in Hty. discriminate.
Qed.

(** ** Week numbering *)

(** C3: without an anchor the week number is 0; with anchor [a] it is
    [floor((today - a).days / 7) + 1]: week 1 starts on the anchor day,
    every further 7 days add one week whatever the calendar year, and the
    number never decreases as today advances. *)
Theorem current_week_number_spec (db : Database) (clk : Clock) :
  ledger_wf db ->
  (no_anchor db -> get_current_week_number db clk = 0) /\
  (forall a, is_anchor db a ->
     get_current_week_number db clk
       = (toordinal (date_today clk) - toordinal a) / 7 + 1 /\
     (toordinal a <= toordinal (date_today clk) ->
      1 <= get_current_week_number db clk) /\
     (forall clk', toordinal (date_today clk') = toordinal (date_today clk) + 7 ->
      get_current_week_number db clk' = get_current_week_number db clk + 1) /\
     (forall clk', toordinal (date_today clk) <= toordinal (date_today clk') ->
      get_current_week_number db clk <= get_current_week_number db clk')).
Proof.
  intros W. unfold get_current_week_number. split.
  - intros H. apply first_trade_date_none in H. now rewrite H.
  - intros a Ha. destruct (anchor_first_trade_date db a W Ha) as (m & -> & Em).
    unfold days_between. rewrite Em. repeat split.
    + intros Hle. Z.div_mod_to_equations. lia.
    + intros clk' ->. Z.div_mod_to_equations. lia.
    + intros clk' Hle. Z.div_mod_to_equations. lia.
Qed.

(** ** The summary, field by field *)

Ltac solve_ledger_wf :=
  let t := fresh "t" in
  let Ht := fresh "Ht" in
  intros t Ht; simpl in Ht;
  repeat (destruct Ht as [<- | Ht]; [reflexivity |]); contradiction.

Ltac solve_is_anchor tr :=
  split;
  [ exists tr; split; [simpl; tauto | split; reflexivity]
  | let t := fresh "t" in
    let Ht := fresh "Ht" in
    intros t Ht _; simpl in Ht;
    repeat (destruct Ht as [<- | Ht]; [apply Z.leb_le; reflexivity |]);
    contradiction ].

Lemma ledger_jan_wf : ledger_wf ledger_jan.
Proof. solve_ledger_wf. Qed.

Lemma ledger_jan_anchor : is_anchor ledger_jan (mkdate 2026 1 6).
Proof.
  solve_is_anchor (sample_trade 1 CC "FLY" (98 # 100) 1 EXPIRED (mkdate 2026 1 6)).
Qed.

Lemma current_week_number_witness :
  ledger_wf ledger_jan /\ is_anchor ledger_jan (mkdate 2026 1 6) /\
  get_current_week_number ledger_jan clock_jan22 = 3.
Proof.
  split; [exact ledger_jan_wf |]. split; [exact ledger_jan_anchor |].
  destruct (current_week_number_spec ledger_jan clock_jan22 ledger_jan_wf) as [_ H].
  destruct (H _ ledger_jan_anchor) as [E _]. rewrite E. reflexivity.
Defined.

Lemma truediv_guarded (total : Q) (d span : Z) :
  (if 0 <? d
   then q <- truediv total d ;; Ok (q * inject_Z span)%Q
   else Ok 0%Q)
  = Ok (linear_projection total d span).
Proof.
  unfold linear_projection, truediv.
  destruct (Z.ltb_spec 0 d) as [H | H]; [| reflexivity].
  destruct (Z.eqb_spec d 0); [lia | reflexivity].
Qed.

Lemma select_premium_total_eq (cond : Trade -> bool) (rows : list Trade) :
  select_premium_total cond rows = realized_premium cond rows.
Proof.
  unfold select_premium_total, realized_premium, realized.
  destruct (map premium_amount _); reflexivity.
Qed.

Lemma realized_premium_ext (c1 c2 : Trade -> bool) (rows : list Trade) :
  (forall t, In t rows -> c1 t = c2 t) ->
  realized_premium c1 rows = realized_premium c2 rows.
Proof.
  intros H. unfold realized_premium. f_equal. f_equal.
  apply filter_ext_in. intros t Ht. now rewrite (H t Ht).
Qed.

(** The summary never raises; its fields are the following. *)
Lemma get_premium_summary_fields (db : Database) (clk : Clock) :
  exists s,
    get_premium_summary db clk = Ok s /\
    week s = realized_premium
               (fun t => iso_leb
                           (current_week_start (get_first_trade_date db) (date_today clk))
                           (opened_on t))
               (trades db) /\
    week_number s = get_current_week_number db clk /\
    month_total s = realized_premium
                      (fun t => ym_eqb (strftime_Ym (opened_at t))
                                       (strftime_Ym (sql_now clk)))
                      (trades db) /\
    ytd s = realized_premium
              (fun t => strftime_Y (opened_at t) =? start_year db clk) (trades db) /\
    yearly s = fold_left (fun d row => dict_set d (fst row) (snd row))
                 (order_by (fun a b => fst b <=? fst a)
                    (select_premium_group_by Z.eq_dec
                       (fun t => strftime_Y (opened_at t)) (fun _ => true) (trades db)))
                 [] /\
    first_trade_date s = get_first_trade_date db /\
    projected s =
      match get_first_trade_date db with
      | Some ft =>
          if year ft =? year (date_today clk) then
            linear_projection (ytd s)
              (days_between (date_today clk) ft + 1)
              (days_between (date_today clk) ft + 1 +
               days_between (mkdate (year (date_today clk)) 12 31) (date_today clk))
          else
            linear_projection (ytd s)
              (days_between (date_today clk) (replace_month_day (date_today clk) 1 1) + 1)
              (year_length (year (date_today clk)))
      | None =>
          linear_projection (ytd s)
            (days_between (date_today clk) (replace_month_day (date_today clk) 1 1) + 1)
            (year_length (year (date_today clk)))
      end.
Proof.
  unfold get_premium_summary, start_year, year_length.
  rewrite !select_premium_total_eq.
  destruct (get_first_trade_date db) as [ft |];
    [destruct (year ft =? year (date_today clk)) |];
    rewrite truediv_guarded; simpl;
    eexists; (split; [reflexivity |]); simpl; repeat split.
Qed.

Lemma anchor_valid (db : Database) (a : date) :
  ledger_wf db -> is_anchor db a -> valid_date a = true.
Proof. intros W [(t & Ht & _ & <-) _]. now apply W. Qed.

Lemma anchor_unique (db : Database) (a m : date) :
  ledger_wf db -> is_anchor db a -> get_first_trade_date db = Some m -> m = a.
Proof.
  intros W Ha Hm.
  destruct (anchor_first_trade_date db a W Ha) as (m' & E & Eo).
  rewrite Hm in E. injection E as <-.
  apply toordinal_inj; auto.
  - eapply anchor_valid; eauto. now apply first_trade_date_anchor.
  - eapply anchor_valid; eauto.
Qed.

(** C2: with anchor [a], [week] sums the realized premium of the trades
    opened on or after day [a + 7 * floor((today - a).days / 7)]; without
    an anchor the window starts today. *)
Theorem week_premium_spec (db : Database) (clk : Clock) :
  ledger_wf db -> valid_date (date_today clk) = true ->
  exists s,
    get_premium_summary db clk = Ok s /\
    (forall a, is_anchor db a ->
       week s = realized_premium
                  (fun t => toordinal a
                            + 7 * ((toordinal (date_today clk) - toordinal a) / 7)
                            <=? toordinal (opened_on t))
                  (trades db)) /\
    (no_anchor db ->
       current_week_start (get_first_trade_date db) (date_today clk) = date_today clk /\
       week s = realized_premium
                  (fun t => toordinal (date_today clk) <=? toordinal (opened_on t))
                  (trades db)).
Proof.
  intros W Vt.
  destruct (get_premium_summary_fields db clk) as (s & Hs & Hweek & _).
  exists s. split; [exact Hs |]. rewrite Hweek. split.
  - intros a Ha. destruct (anchor_first_trade_date db a W Ha) as (m & -> & Em).
    apply realized_premium_ext. intros t Ht. unfold current_week_start, days_between.
    rewrite iso_leb_add_days by (now apply W).
    rewrite Em. f_equal. lia.
  - intros H. apply first_trade_date_none in H. rewrite H. simpl.
    split; [reflexivity |].
    apply realized_premium_ext. intros t Ht.
    apply iso_leb_toordinal; [assumption | now apply W].
Qed.

Lemma week_premium_witness :
  ledger_wf ledger_jan /\ valid_date (date_today clock_jan15) = true /\
  is_anchor ledger_jan (mkdate 2026 1 6) /\
  exists s, get_premium_summary ledger_jan clock_jan15 = Ok s /\
            week s = realized_premium
                       (fun t => 739629 <=? toordinal (opened_on t))
                       (trades ledger_jan).
Proof.
  split; [exact ledger_jan_wf |]. split; [reflexivity |].
  split; [exact ledger_jan_anchor |].
  destruct (week_premium_spec ledger_jan clock_jan15 ledger_jan_wf eq_refl)
    as (s & Hs & Ha & _).
  exists s. split; [exact Hs |]. exact (Ha _ ledger_jan_anchor).
Defined.

(** C4: [ytd] sums the realized premium of the trades opened in the
    anchor's year, or in today's year when there is no anchor. *)
Theorem ytd_premium_spec (db : Database) (clk : Clock) :
  ledger_wf db ->
  exists s,
    get_premium_summary db clk = Ok s /\
    (forall a, is_anchor db a ->
       ytd s = realized_premium (fun t => year (opened_on t) =? year a) (trades db)) /\
    (no_anchor db ->
       ytd s = realized_premium
                 (fun t => year (opened_on t) =? year (date_today clk)) (trades db)).
Proof.
  intros W.
  destruct (get_premium_summary_fields db clk) as (s & Hs & _ & _ & _ & Hytd & _).
  exists s. split; [exact Hs |]. rewrite Hytd. unfold start_year. split.
  - intros a Ha. destruct (anchor_first_trade_date db a W Ha) as (m & Hm & _).
    rewrite Hm. now rewrite (anchor_unique db a m W Ha Hm).
  - intros H. apply first_trade_date_none in H. now rewrite H.
Qed.

Lemma ytd_premium_witness :
  ledger_wf ledger_jan /\ is_anchor ledger_jan (mkdate 2026 1 6) /\
  exists s, get_premium_summary ledger_jan clock_jan22 = Ok s /\
            ytd s = realized_premium (fun t => year (opened_on t) =? 2026)
                      (trades ledger_jan).
Proof.
  split; [exact ledger_jan_wf |]. split; [exact ledger_jan_anchor |].
  destruct (ytd_premium_spec ledger_jan clock_jan22 ledger_jan_wf)
    as (s & Hs & Ha & _).
  exists s. split; [exact Hs |]. exact (Ha _ ledger_jan_anchor).
Defined.

(** ** The year-end projection *)

Lemma ledger_mar10_wf : ledger_wf ledger_mar10.
Proof. solve_ledger_wf. Qed.

Lemma ledger_mar10_anchor : is_anchor ledger_mar10 (mkdate 2026 3 10).
Proof.
  solve_is_anchor (sample_trade 1 CC "FLY" 1 1 EXPIRED (mkdate 2026 3 10)).
Qed.

(** C1 as stated fails when today lies more than a day before the
    anchor within the anchor's year: with a covered call opened on
    10 March 2026 and today 1 March 2026, [d = -8] is not 0, [ytd] is 100,
    the stated formula gives [100 / -8 * 297] and the summary reports 0. *)
Lemma projected_formula_counterexample :
  exists s,
    get_premium_summary ledger_mar10 clock_mar01 = Ok s /\
    is_anchor ledger_mar10 (mkdate 2026 3 10) /\
    year (mkdate 2026 3 10) = year (date_today clock_mar01) /\
    let d := toordinal (date_today clock_mar01) - toordinal (mkdate 2026 3 10) + 1 in
    let r := toordinal (mkdate (year (date_today clock_mar01)) 12 31)
             - toordinal (date_today clock_mar01) in
    d = -8 /\ r = 305 /\ ytd s == 100 /\ projected s == 0 /\
    ~ projected s == ytd s / inject_Z d * inject_Z (d + r).
Proof.
  eexists. split; [reflexivity |].
  split; [exact ledger_mar10_anchor |].
  repeat split; try reflexivity.
  intros H. vm_compute in H. discriminate H.
Qed.

(** C1, amended: the projection is [ytd / d * (d + r)] in the anchor's
    year when [d > 0] and 0 when [d <= 0]; in any other year, or without an
    anchor, it is [ytd / e * y] with [e] the day of the year, which is at
    least 1 on a calendar date. The summary never raises. *)
Theorem projected_spec (db : Database) (clk : Clock) :
  ledger_wf db ->
  exists s,
    get_premium_summary db clk = Ok s /\
    let today := date_today clk in
    let e := toordinal today - toordinal (mkdate (year today) 1 1) + 1 in
    let y := if isleap (year today) then 366 else 365 in
    (forall a, is_anchor db a -> year a = year today ->
       let d := toordinal today - toordinal a + 1 in
       let r := toordinal (mkdate (year today) 12 31) - toordinal today in
       (0 < d -> projected s == ytd s / inject_Z d * inject_Z (d + r)) /\
       (d <= 0 -> projected s == 0)) /\
    (no_anchor db \/ (exists a, is_anchor db a /\ year a <> year today) ->
       (0 < e -> projected s == ytd s / inject_Z e * inject_Z y) /\
       (e <= 0 -> projected s == 0)) /\
    (valid_date today = true -> 1 <= e).
Proof.
  intros W.
  destruct (get_premium_summary_fields db clk)
    as (s & Hs & _ & _ & _ & _ & _ & _ & Hp).
  exists s. split; [exact Hs |]. cbv zeta. rewrite Hp.
  unfold days_between, replace_month_day, year_length, linear_projection.
  split; [| split].
  - intros a Ha Hy. destruct (anchor_first_trade_date db a W Ha) as (m & Hm & _).
    rewrite Hm. rewrite (anchor_unique db a m W Ha Hm), Hy, Z.eqb_refl.
    split; intros Hd.
    + apply Z.ltb_lt in Hd. rewrite Hd. reflexivity.
    + apply Z.ltb_ge in Hd. rewrite Hd. reflexivity.
  - intros [H | (a & Ha & Hy)].
    + apply first_trade_date_none in H. rewrite H.
      split; intros He;
        [apply Z.ltb_lt in He | apply Z.ltb_ge in He]; rewrite He; reflexivity.
    + destruct (anchor_first_trade_date db a W Ha) as (m & Hm & _).
      rewrite Hm. rewrite (anchor_unique db a m W Ha Hm).
      apply Z.eqb_neq in Hy. rewrite Hy.
      split; intros He;
        [apply Z.ltb_lt in He | apply Z.ltb_ge in He]; rewrite He; reflexivity.
  - intros V. pose proof (day_of_year _ V). lia.
Qed.

Lemma projected_witness :
  ledger_wf ledger_jan /\ is_anchor ledger_jan (mkdate 2026 1 6) /\
  exists s, get_premium_summary ledger_jan clock_jan22 = Ok s /\
            projected s == ytd s / inject_Z 17 * inject_Z (17 + 343).
Proof.
  split; [exact ledger_jan_wf |]. split; [exact ledger_jan_anchor |].
  destruct (projected_spec ledger_jan clock_jan22 ledger_jan_wf)
    as (s & Hs & Ha & _).
  exists s. split; [exact Hs |].
  destruct (Ha _ ledger_jan_anchor eq_refl) as [Hpos _].
  apply Hpos. reflexivity.
Defined.

(** ** Ledgers without CC/CSP trades *)

Lemma filter_none {A : Type} (f : A -> bool) (l : list A) :
  (forall x, In x l -> f x = false) -> filter f l = [].
Proof.
  induction l as [| x l IH]; simpl; intros H; [reflexivity |].
  rewrite (H x) by auto. apply IH. auto.
Qed.

Lemma realized_premium_no_anchor (db : Database) (cond : Trade -> bool) :
  no_anchor db -> realized_premium cond (trades db) = 0%Q.
Proof.
  intros H. unfold realized_premium. rewrite filter_none; [reflexivity |].
  intros t Ht. unfold realized. now rewrite (H t Ht).
Qed.

Lemma linear_projection_zero (total : Q) (d span : Z) :
  total == 0 -> linear_projection total d span == 0.
Proof.
  intros H. unfold linear_projection. destruct (0 <? d); [| reflexivity].
  rewrite H. unfold Qdiv. now rewrite !Qmult_0_l.
Qed.

(** ** Sums, sorting and grouping *)

Lemma coalesce_sql_sum (l : list Q) : coalesce (sql_sum l) 0%Q = Qsum l.
Proof. destruct l; reflexivity. Qed.



Section OrderByFacts.
Context {A : Type} (before : A -> A -> bool).

Lemma insert_by_perm (x : A) (l : list A) :
  Permutation (insert_by before x l) (x :: l).
Proof.
  induction l as [| y l IH]; simpl; [reflexivity |].
  destruct (before x y); [reflexivity |].
  rewrite IH. apply perm_swap.
Qed.

Lemma order_by_perm (l : list A) : Permutation (order_by before l) l.
Proof.
  induction l as [| x l IH]; simpl; [reflexivity |].
  rewrite insert_by_perm. now constructor.
Qed.

Hypothesis before_total : forall x y, before x y = false -> before y x = true.
Hypothesis before_trans :
  forall x y z, before x y = true -> before y z = true -> before x z = true.

Lemma insert_by_sorted (x : A) (l : list A) :
  StronglySorted (fun a b => before a b = true) l ->
  StronglySorted (fun a b => before a b = true) (insert_by before x l).
Proof.
  induction 1 as [| y l Hs IH Hy]; simpl.
  - repeat constructor.
  - destruct (before x y) eqn:E.
    + constructor; [now constructor |].
      constructor; [exact E |].
      rewrite Forall_forall in *. eauto.
    + constructor; [exact IH |].
      rewrite Forall_forall in *. intros z Hz.
      apply (Permutation_in _ (insert_by_perm x l)) in Hz.
      destruct Hz as [<- | Hz]; auto.
Qed.

Lemma order_by_sorted (l : list A) :
  StronglySorted (fun a b => before a b = true) (order_by before l).
Proof.
  induction l as [| x l IH]; simpl; [constructor | now apply insert_by_sorted].
Qed.
End OrderByFacts.


Lemma filter_and {A : Type} (f g : A -> bool) (l : list A) :
  filter f (filter g l) = filter (fun x => g x && f x) l.
Proof.
  induction l as [| x l IH]; simpl; [reflexivity |].
  destruct (g x); simpl; [destruct (f x) |]; now rewrite IH.
Qed.

Lemma dict_set_fresh (d : list (Z * Q)) (k : Z) (v : Q) :
  ~ In k (map fst d) -> dict_set d k v = d ++ [(k, v)].
Proof.
  induction d as [| [k' v'] d IH]; simpl; intros H; [reflexivity |].
  destruct (Z.eqb_spec k' k) as [-> | _]; [tauto |].
  rewrite IH by tauto. reflexivity.
Qed.

(** Filling a dict from rows with distinct keys keeps the rows as they come. *)
Lemma dict_of_distinct_rows (rows acc : list (Z * Q)) :
  NoDup (map fst (acc ++ rows)) ->
  fold_left (fun d row => dict_set d (fst row) (snd row)) rows acc = acc ++ rows.
Proof.
  revert acc. induction rows as [| [k v] rows IH]; intros acc H; simpl.
  - now rewrite app_nil_r.
  - rewrite dict_set_fresh.
    + rewrite IH; rewrite <- app_assoc; [reflexivity | exact H].
    + rewrite map_app in H. apply NoDup_remove_2 in H.
      intros Hin. apply H. apply in_or_app. now left.
Qed.

Section GroupByFacts.
Context {K : Type} (K_dec : forall a b : K, {a = b} + {a <> b}).
Variable key : Trade -> K.
Local Open Scope Q_scope.

Lemma group_keys (cond : Trade -> bool) (rows : list Trade) :
  map fst (select_premium_group_by K_dec key cond rows)
  = nodup K_dec (map key (filter (fun t => realized t && cond t) rows)).
Proof.
  unfold select_premium_group_by, realized. rewrite map_map. simpl.
  apply map_id.
Qed.

(** Each group row carries the realized premium of its key. *)
Lemma group_row (cond : Trade -> bool) (rows : list Trade) (k : K) (v : Q) :
  In (k, v) (select_premium_group_by K_dec key cond rows) ->
  v = realized_premium (fun t => cond t && key_is K_dec key k t) rows /\
  exists t, In t rows /\ realized t = true /\ cond t = true /\ key t = k.
Proof.
  unfold select_premium_group_by. intros H.
  apply in_map_iff in H. destruct H as (k' & E & Hk). injection E as -> <-.
  split.
  - rewrite coalesce_sql_sum. unfold realized_premium, realized.
    f_equal. f_equal. rewrite filter_and. apply filter_ext.
    intros t. now rewrite andb_assoc.
  - apply nodup_In, in_map_iff in Hk. destruct Hk as (t & Ek & Ht).
    apply filter_In in Ht. destruct Ht as [Ht Hc].
    exists t. unfold realized.
    destruct (type_in_cc_csp t && status_not_open t); simpl in *; auto.
    discriminate.
Qed.




End GroupByFacts.

(** ** The yearly mapping *)

Lemma yearly_rows (db : Database) (clk : Clock) :
  exists s,
    get_premium_summary db clk = Ok s /\
    yearly s = order_by (fun a b => fst b <=? fst a)
                 (select_premium_group_by Z.eq_dec
                    (fun t => strftime_Y (opened_at t)) (fun _ => true) (trades db)) /\
    ytd s = realized_premium
              (fun t => strftime_Y (opened_at t) =? start_year db clk) (trades db).
Proof.
  destruct (get_premium_summary_fields db clk)
    as (s & Hs & _ & _ & _ & Hytd & Hy & _).
  exists s. repeat split; try assumption.
  rewrite Hy. apply (dict_of_distinct_rows _ []). simpl.
  eapply Permutation_NoDup.
  - apply Permutation_map. symmetry. apply order_by_perm.
  - rewrite group_keys. apply NoDup_nodup.
Qed.



(** ** Top performers *)

Example top_performers_jan :
  get_top_performers ledger_jan clock_jan22 "mtd" 5
  = [("RDW"%string, (16000 # 100)%Q); ("FLY"%string, (9800 # 100)%Q)].
Proof. reflexivity. Qed.











(** ** Assignments *)

Lemma get_position_update (db : Database) (tk : string) (p : Position)
    (sh : option Z) (cb pr : option Q) :
  get_position db tk = Some p ->
  get_position (update_position db (pos_id p) sh cb pr) tk
  = Some (mkPosition (pos_id p) (pos_ticker p)
            (set_opt sh (shares_owned p)) (set_opt cb (cost_basis p))
            (set_opt pr (current_price p))).
Proof.
  unfold get_position, update_position. cbn [positions].
  induction (positions db) as [| q l IH]; simpl; [discriminate |].
  destruct (String.eqb (pos_ticker q) (upper tk)) eqn:E.
  - intros [= ->]. rewrite Z.eqb_refl. cbn [pos_ticker]. now rewrite E.
  - intros H. destruct (pos_id q =? pos_id p); cbn [pos_ticker]; rewrite E; auto.
Qed.

Lemma find_app_none {A : Type} (f : A -> bool) (l1 l2 : list A) :
  find f l1 = None -> find f (l1 ++ l2) = find f l2.
Proof.
  induction l1 as [| x l1 IH]; simpl; [reflexivity |].
  destruct (f x); [discriminate | exact IH].
Qed.

(** The position handed back is the one on record afterwards, with the
    holdings the ticker had before. *)
Lemma get_or_create_position_spec (db : Database) (tk : string) :
  let (p, db1) := get_or_create_position db tk in
  get_position db1 tk = Some p /\
  (shares_owned p, cost_basis p) = holdings db tk /\
  trades db1 = trades db.
Proof.
  unfold get_or_create_position, holdings.
  destruct (get_position db tk) as [p |] eqn:E.
  - auto.
  - unfold create_position. split; [| split; reflexivity].
    unfold get_position in *. cbn [positions].
    rewrite find_app_none by assumption. simpl.
    now rewrite String.eqb_refl.
Qed.

Lemma create_trade_spec (db : Database) (clk : Clock) (tk : string) (ty : TradeType)
    (k : option Q) (expi : option date) (prem : Q) (qty : Z)
    (dlt : option Q) (nts : option string) :
  exists t,
    trades (snd (create_trade db clk tk ty k expi prem qty dlt nts)) = trades db ++ [t] /\
    trade_type t = ty /\ premium t = prem /\ status t = OPEN /\
    (forall p, get_position db tk = Some p ->
       positions (snd (create_trade db clk tk ty k expi prem qty dlt nts)) = positions db).
Proof.
  unfold create_trade.
  pose proof (get_or_create_position_spec db tk) as H.
  unfold get_or_create_position in *.
  destruct (get_position db tk) as [p |] eqn:E.
  - eexists. cbn. repeat split.
  - unfold create_position in *. eexists. cbn. repeat split. discriminate.
Qed.

Lemma get_position_positions (db db' : Database) (tk : string) :
  positions db' = positions db -> get_position db' tk = get_position db tk.
Proof. unfold get_position. now intros ->. Qed.

(** What recording an assignment does to the ticker's position and to the
    trade table. *)
Lemma submit_assignment_effect (db : Database) (clk : Clock) (f : AssignmentForm) :
  let tk := upper (strip (assign_ticker f)) in
  let n := assign_shares f in
  let c := assign_cost f in
  let s0 := fst (holdings db tk) in
  let b0 := snd (holdings db tk) in
  is_empty tk = false ->
  exists db' t p,
    _submit_assignment db clk f = Ok db' /\
    trades db' = trades db ++ [t] /\
    trade_type t = ASSIGNMENT /\ premium t = 0%Q /\
    get_position db' tk = Some p /\
    if assign_type f =? 0 then
      shares_owned p = s0 + n /\
      cost_basis p = (if 0 <? s0 + n
                      then (b0 * inject_Z s0 + c * inject_Z n) / inject_Z (s0 + n)
                      else c)%Q
    else
      shares_owned p = Z.max 0 (s0 - n) /\ cost_basis p = b0.
Proof.
  cbv zeta. intros Hne. unfold _submit_assignment. rewrite Hne.
  pose proof (get_or_create_position_spec db (upper (strip (assign_ticker f)))) as H.
  destruct (get_or_create_position db (upper (strip (assign_ticker f)))) as [p db1].
  destruct H as (Hp & Hh & Ht). rewrite <- Hh. cbn [fst snd].
  destruct (assign_type f =? 0).
  - set (new_shares := shares_owned p + assign_shares f).
    set (new_cost := (cost_basis p * inject_Z (shares_owned p)
                      + assign_cost f * inject_Z (assign_shares f))%Q).
    assert (Havg : (if 0 <? new_shares then truediv new_cost new_shares
                    else Ok (assign_cost f))
                   = Ok (if 0 <? new_shares
                         then (new_cost / inject_Z new_shares)%Q
                         else assign_cost f)).
    { unfold truediv. destruct (Z.ltb_spec 0 new_shares); [| reflexivity].
      destruct (Z.eqb_spec new_shares 0); [lia | reflexivity]. }
    rewrite Havg. cbn [bind].
    set (db2 := update_position db1 (pos_id p) _ _ None).
    pose proof (get_position_update db1 _ p (Some new_shares)
                  (Some (if 0 <? new_shares
                         then (new_cost / inject_Z new_shares)%Q
                         else assign_cost f)) None Hp) as Hp2.
    fold db2 in Hp2.
    destruct (create_trade_spec db2 clk (upper (strip (assign_ticker f))) ASSIGNMENT
                (Some (assign_cost f)) None 0%Q (assign_shares f / 100) None
                (if is_empty (strip (assign_notes f)) then None
                 else Some (strip (assign_notes f))))
      as (t & Htr & Hty & Hpr & _ & Hpos).
    eexists; exists t; eexists.
    split; [reflexivity |].
    split; [rewrite Htr; subst db2; cbn [update_position trades]; now rewrite Ht |].
    split; [exact Hty |]. split; [exact Hpr |].
    split; [rewrite (get_position_positions db2) by (eapply Hpos; eauto); exact Hp2 |].
    cbn. split; reflexivity.
  - cbn [bind].
    set (db2 := update_position db1 (pos_id p) _ None None).
    pose proof (get_position_update db1 _ p
                  (Some (Z.max 0 (shares_owned p - assign_shares f))) None None Hp) as Hp2.
    fold db2 in Hp2.
    destruct (create_trade_spec db2 clk (upper (strip (assign_ticker f))) ASSIGNMENT
                (Some (assign_cost f)) None 0%Q (assign_shares f / 100) None
                (if is_empty (strip (assign_notes f)) then None
                 else Some (strip (assign_notes f))))
      as (t & Htr & Hty & Hpr & _ & Hpos).
    eexists; exists t; eexists.
    split; [reflexivity |].
    split; [rewrite Htr; subst db2; cbn [update_position trades]; now rewrite Ht |].
    split; [exact Hty |]. split; [exact Hpr |].
    split; [rewrite (get_position_positions db2) by (eapply Hpos; eauto); exact Hp2 |].
    cbn. split; reflexivity.
Qed.

Lemma is_empty_false (s : string) : s <> ""%string -> is_empty s = false.
Proof. destruct s; [congruence | reflexivity]. Qed.

(** C8: a put assignment of [n >= 0] shares at [c] per share on holdings of
    [s0 >= 0] shares at basis [b0] leaves [s0 + n] shares at the weighted
    average [(b0 * s0 + c * n) / (s0 + n)], or at [c] when [s0 + n = 0];
    from 0 shares, 100 at 20 and then 100 at 30 give 200 shares at 25. *)
Theorem put_assignment_spec :
  (forall db clk f,
     let tk := upper (strip (assign_ticker f)) in
     let n := assign_shares f in
     let c := assign_cost f in
     let s0 := fst (holdings db tk) in
     let b0 := snd (holdings db tk) in
     tk <> ""%string -> assign_type f = 0 -> 0 <= s0 -> 0 <= n ->
     exists db' p,
       _submit_assignment db clk f = Ok db' /\
       get_position db' tk = Some p /\
       shares_owned p = s0 + n /\
       (cost_basis p ==
        if s0 + n =? 0 then c
        else (b0 * inject_Z s0 + c * inject_Z n) / inject_Z (s0 + n))%Q) /\
  (forall db clk1 clk2 text notes1 notes2,
     let tk := upper (strip text) in
     tk <> ""%string -> fst (holdings db tk) = 0 ->
     exists db1 db2,
       _submit_assignment db clk1 (mkAssignmentForm text 100 20 0 notes1) = Ok db1 /\
       fst (holdings db1 tk) = 100 /\ (snd (holdings db1 tk) == 20)%Q /\
       _submit_assignment db1 clk2 (mkAssignmentForm text 100 30 0 notes2) = Ok db2 /\
       fst (holdings db2 tk) = 200 /\ (snd (holdings db2 tk) == 25)%Q).
Proof.
  split.
  - intros db clk f tk n c s0 b0 Hne Hput Hs0 Hn.
    destruct (submit_assignment_effect db clk f (is_empty_false _ Hne))
      as (db' & t & p & Hok & _ & _ & _ & Hp & Heff).
    rewrite Hput in Heff. simpl in Heff. destruct Heff as [Hsh Hcb].
    exists db', p. repeat split; try assumption.
    fold tk n c s0 b0 in Hcb. rewrite Hcb.
    destruct (Z.eqb_spec (s0 + n) 0) as [E | N].
    + rewrite E. reflexivity.
    + destruct (Z.ltb_spec 0 (s0 + n)); [reflexivity | lia].
  - intros db clk1 clk2 text notes1 notes2 tk Hne Hs0.
    destruct (submit_assignment_effect db clk1
                (mkAssignmentForm text 100 20 0 notes1) (is_empty_false _ Hne))
      as (db1 & t1 & p1 & Hok1 & _ & _ & _ & Hp1 & Hsh1 & Hcb1).
    cbn [assign_ticker assign_shares assign_cost] in *. fold tk in Hp1, Hsh1, Hcb1.
    rewrite Hs0 in Hsh1, Hcb1. simpl in Hsh1, Hcb1.
    destruct (submit_assignment_effect db1 clk2
                (mkAssignmentForm text 100 30 0 notes2) (is_empty_false _ Hne))
      as (db2 & t2 & p2 & Hok2 & _ & _ & _ & Hp2 & Hsh2 & Hcb2).
    cbn [assign_ticker assign_shares assign_cost] in *. fold tk in Hp2, Hsh2, Hcb2.
    assert (H1 : holdings db1 tk = (shares_owned p1, cost_basis p1))
      by (unfold holdings; now rewrite Hp1).
    assert (H2 : holdings db2 tk = (shares_owned p2, cost_basis p2))
      by (unfold holdings; now rewrite Hp2).
    rewrite H1 in Hsh2, Hcb2. cbn [fst snd] in Hsh2, Hcb2.
    rewrite Hsh1 in Hsh2, Hcb2. simpl in Hsh2, Hcb2.
    assert (Q1 : (cost_basis p1 == 20)%Q).
    { rewrite Hcb1. unfold Qeq, Qdiv, Qmult, Qplus, Qinv, inject_Z. simpl. lia. }
    exists db1, db2. rewrite H1, H2. cbn [fst snd].
    repeat split; try assumption.
    rewrite Hcb2, Q1. reflexivity.
Qed.

Lemma put_assignment_witness :
  upper (strip "fly") <> ""%string /\ 0 <= fst (holdings ledger_jan "FLY") /\
  exists db' p,
    _submit_assignment ledger_jan clock_jan22
      (mkAssignmentForm "fly" 100 (30 # 1) 0 "") = Ok db' /\
    get_position db' "FLY" = Some p /\ shares_owned p = 200 /\
    (cost_basis p == 25)%Q.
Proof.
  split; [discriminate |]. split; [simpl; lia |].
  destruct (proj1 put_assignment_spec ledger_jan clock_jan22
              (mkAssignmentForm "fly" 100 (30 # 1) 0 "")
              ltac:(discriminate) eq_refl ltac:(simpl; lia) ltac:(simpl; lia))
    as (db' & p & Hok & Hp & Hsh & Hcb).
  exists db', p.
  split; [exact Hok |]. split; [exact Hp |]. split; [exact Hsh |].
  rewrite Hcb. vm_compute. reflexivity.
Defined.

(** C9: a call assignment of [n] shares on holdings of [s0] shares leaves
    [max(0, s0 - n)] shares, never a negative count, and keeps the cost
    basis; from 50 shares, assigning 100 away leaves 0. *)
Theorem call_assignment_spec :
  (forall db clk f,
     let tk := upper (strip (assign_ticker f)) in
     let n := assign_shares f in
     let s0 := fst (holdings db tk) in
     let b0 := snd (holdings db tk) in
     tk <> ""%string -> assign_type f <> 0 ->
     exists db' p,
       _submit_assignment db clk f = Ok db' /\
       get_position db' tk = Some p /\
       shares_owned p = Z.max 0 (s0 - n) /\
       0 <= shares_owned p /\
       cost_basis p = b0) /\
  (forall db clk text cost ty notes,
     let tk := upper (strip text) in
     tk <> ""%string -> ty <> 0 -> fst (holdings db tk) = 50 ->
     exists db',
       _submit_assignment db clk (mkAssignmentForm text 100 cost ty notes) = Ok db' /\
       fst (holdings db' tk) = 0).
Proof.
  assert (G : forall db clk f,
     let tk := upper (strip (assign_ticker f)) in
     tk <> ""%string -> assign_type f <> 0 ->
     exists db' p,
       _submit_assignment db clk f = Ok db' /\
       get_position db' tk = Some p /\
       shares_owned p = Z.max 0 (fst (holdings db tk) - assign_shares f) /\
       0 <= shares_owned p /\
       cost_basis p = snd (holdings db tk)).
  { intros db clk f tk Hne Hcall.
    destruct (submit_assignment_effect db clk f (is_empty_false _ Hne))
      as (db' & t & p & Hok & _ & _ & _ & Hp & Heff).
    apply Z.eqb_neq in Hcall. rewrite Hcall in Heff. destruct Heff as [Hsh Hcb].
    exists db', p. repeat split; try assumption. rewrite Hsh. lia. }
  split.
  - exact G.
  - intros db clk text cost ty notes tk Hne Hty Hs0.
    destruct (G db clk (mkAssignmentForm text 100 cost ty notes) Hne Hty)
      as (db' & p & Hok & Hp & Hsh & _).
    cbn [assign_ticker assign_shares] in *. fold tk in Hp, Hsh.
    exists db'. split; [exact Hok |].
    unfold holdings at 1. rewrite Hp. cbn [fst]. rewrite Hsh, Hs0. reflexivity.
Qed.

Lemma call_assignment_witness :
  upper (strip "fly") <> ""%string /\ (1 : Z) <> 0 /\
  exists db' p,
    _submit_assignment ledger_jan clock_jan22
      (mkAssignmentForm "fly" 300 (30 # 1) 1 "") = Ok db' /\
    get_position db' "FLY" = Some p /\ shares_owned p = 0 /\
    cost_basis p = (20 # 1)%Q.
Proof.
  split; [discriminate |]. split; [discriminate |].
  destruct (proj1 call_assignment_spec ledger_jan clock_jan22
              (mkAssignmentForm "fly" 300 (30 # 1) 1 "")
              ltac:(discriminate) ltac:(discriminate))
    as (db' & p & Hok & Hp & Hsh & _ & Hcb).
  exists db', p.
  split; [exact Hok |]. split; [exact Hp |]. split; [exact Hsh |]. exact Hcb.
Defined.

(** ** Trades that carry no premium *)

Lemma filter_premium_types (g : Trade -> bool) (rows : list Trade) :
  filter (fun t => type_in_cc_csp t && g t) rows
  = filter (fun t => type_in_cc_csp t && g t) (filter type_in_cc_csp rows).
Proof.
  rewrite filter_and. apply filter_ext. intros t.
  destruct (type_in_cc_csp t); reflexivity.
Qed.

Lemma select_premium_total_types (cond : Trade -> bool) (rows : list Trade) :
  select_premium_total cond rows
  = select_premium_total cond (filter type_in_cc_csp rows).
Proof.
  unfold select_premium_total.
  rewrite (filter_ext _ (fun t => type_in_cc_csp t && (status_not_open t && cond t)))
    by (intros; now rewrite andb_assoc).
  rewrite (filter_ext (fun t => type_in_cc_csp t && status_not_open t && cond t)
             (fun t => type_in_cc_csp t && (status_not_open t && cond t)))
    by (intros; now rewrite andb_assoc).
  now rewrite filter_premium_types.
Qed.

Lemma select_premium_group_by_types {K : Type}
    (K_dec : forall a b : K, {a = b} + {a <> b})
    (key : Trade -> K) (cond : Trade -> bool) (rows : list Trade) :
  select_premium_group_by K_dec key cond rows
  = select_premium_group_by K_dec key cond (filter type_in_cc_csp rows).
Proof.
  unfold select_premium_group_by.
  rewrite (filter_ext _ (fun t => type_in_cc_csp t && (status_not_open t && cond t)))
    by (intros; now rewrite andb_assoc).
  rewrite (filter_ext (fun t => type_in_cc_csp t && status_not_open t && cond t)
             (fun t => type_in_cc_csp t && (status_not_open t && cond t)))
    by (intros; now rewrite andb_assoc).
  now rewrite filter_premium_types.
Qed.

(** Every query reads the trade table through [type IN ('CC', 'CSP')]. *)
Lemma queries_read_premium_trades (db db' : Database) (clk : Clock) :
  filter type_in_cc_csp (trades db') = filter type_in_cc_csp (trades db) ->
  get_premium_summary db' clk = get_premium_summary db clk /\
  forall period limit,
    get_top_performers db' clk period limit = get_top_performers db clk period limit.
Proof.
  intros H. split.
  - unfold get_premium_summary, get_current_week_number, get_first_trade_date.
    rewrite !(select_premium_total_types _ (trades db')).
    rewrite !(select_premium_total_types _ (trades db)).
    rewrite (select_premium_group_by_types _ _ _ (trades db')).
    rewrite (select_premium_group_by_types _ _ _ (trades db)).
    rewrite H. reflexivity.
  - intros period limit. unfold get_top_performers.
    rewrite (select_premium_group_by_types _ _ _ (trades db')).
    rewrite (select_premium_group_by_types _ _ _ (trades db)).
    rewrite H. reflexivity.
Qed.

Lemma filter_without (t : Trade) (l1 l2 : list Trade) :
  type_in_cc_csp t = false ->
  filter type_in_cc_csp (l1 ++ t :: l2) = filter type_in_cc_csp (l1 ++ l2).
Proof.
  intros H. rewrite !filter_app. simpl. now rewrite H.
Qed.

(** C10: a trade of type ASSIGNMENT, CLOSE, ROLL, BUY or SELL, inserted
    anywhere in the ledger or removed from it, changes neither the premium
    summary nor any ranking; nor does recording an assignment. *)
Theorem non_premium_trade_frame :
  (forall ps ps' l1 l2 t clk,
     In (trade_type t) [ASSIGNMENT; CLOSE; ROLL; BUY; SELL] ->
     get_premium_summary (mkDatabase ps' (l1 ++ t :: l2)) clk
     = get_premium_summary (mkDatabase ps (l1 ++ l2)) clk /\
     forall period limit,
       get_top_performers (mkDatabase ps' (l1 ++ t :: l2)) clk period limit
       = get_top_performers (mkDatabase ps (l1 ++ l2)) clk period limit) /\
  (forall db clk f db',
     _submit_assignment db clk f = Ok db' ->
     forall clk',
       get_premium_summary db' clk' = get_premium_summary db clk' /\
       forall period limit,
         get_top_performers db' clk' period limit
         = get_top_performers db clk' period limit).
Proof.
  split.
  - intros ps ps' l1 l2 t clk Hty.
    apply queries_read_premium_trades. cbn [trades].
    apply filter_without. unfold type_in_cc_csp.
    simpl in Hty. destruct Hty as [<- | [<- | [<- | [<- | [<- | []]]]]]; reflexivity.
  - intros db clk f db' Hok clk'.
    apply queries_read_premium_trades.
    destruct (is_empty (upper (strip (assign_ticker f)))) eqn:E.
    + unfold _submit_assignment in Hok. rewrite E in Hok.
      injection Hok as <-. reflexivity.
    + destruct (submit_assignment_effect db clk f E)
        as (db2 & t & p & Hok2 & Htr & Hty & _).
      rewrite Hok in Hok2. injection Hok2 as <-.
      rewrite Htr, <- (app_nil_r (trades db)) at 1.
      rewrite <- app_assoc. simpl.
      rewrite (filter_without t (trades db) []), app_nil_r; [reflexivity |].
      unfold type_in_cc_csp. now rewrite Hty.
Qed.

Lemma non_premium_trade_frame_witness :
  In (trade_type (sample_trade 9 ASSIGNMENT "FLY" 0 1 OPEN (mkdate 2026 1 7)))
     [ASSIGNMENT; CLOSE; ROLL; BUY; SELL] /\
  get_premium_summary
    (mkDatabase [sample_position]
       (firstn 1 (trades ledger_jan)
        ++ sample_trade 9 ASSIGNMENT "FLY" 0 1 OPEN (mkdate 2026 1 7)
        :: skipn 1 (trades ledger_jan)))
    clock_jan22
  = get_premium_summary ledger_jan clock_jan22.
Proof.
  split; [simpl; tauto |].
  exact (proj1 (proj1 non_premium_trade_frame [sample_position] [sample_position]
                  (firstn 1 (trades ledger_jan)) (skipn 1 (trades ledger_jan))
                  (sample_trade 9 ASSIGNMENT "FLY" 0 1 OPEN (mkdate 2026 1 7))
                  clock_jan22 ltac:(simpl; tauto))).
Defined.

(** ** Totality *)

Lemma submit_assignment_total (db : Database) (clk : Clock) (f : AssignmentForm) :
  exists db', _submit_assignment db clk f = Ok db'.
Proof.
  destruct (is_empty (upper (strip (assign_ticker f)))) eqn:E.
  - exists db. unfold _submit_assignment. now rewrite E.
  - destruct (submit_assignment_effect db clk f E) as (db' & _ & _ & H & _).
    now exists db'.
Qed.

Lemma top_performers_no_anchor (db : Database) (clk : Clock) (period : string) (limit : Z) :
  no_anchor db -> get_top_performers db clk period limit = [].
Proof.
  intros H. unfold get_top_performers, select_premium_group_by.
  rewrite filter_none.
  - simpl. unfold sql_limit. destruct (limit <? 0); [reflexivity | apply firstn_nil].
  - intros t Ht. now rewrite (H t Ht).
Qed.

(** C5: on a ledger without CC/CSP trades there is no anchor, the week
    number is 0, the summary is returned with [ytd] and [projected] equal
    to 0 and the ranking is empty; on every ledger the summary is returned
    and an assignment is recorded without an error. *)
Theorem no_premium_trades_spec :
  (forall db clk, exists s, get_premium_summary db clk = Ok s) /\
  (forall db clk f, exists db', _submit_assignment db clk f = Ok db') /\
  (forall db clk,
     no_anchor db ->
     get_first_trade_date db = None /\
     get_current_week_number db clk = 0 /\
     (forall period limit, get_top_performers db clk period limit = []) /\
     exists s, get_premium_summary db clk = Ok s /\
               ytd s = 0%Q /\ (projected s == 0)%Q /\ first_trade_date s = None).
Proof.
  split; [| split].
  - intros db clk. destruct (get_premium_summary_fields db clk) as (s & Hs & _).
    now exists s.
  - apply submit_assignment_total.
  - intros db clk H.
    assert (E : get_first_trade_date db = None) by now apply first_trade_date_none.
    split; [exact E |].
    split; [unfold get_current_week_number; now rewrite E |].
    split; [intros; now apply top_performers_no_anchor |].
    destruct (get_premium_summary_fields db clk)
      as (s & Hs & _ & _ & _ & Hytd & _ & Hf & Hp).
    exists s. rewrite realized_premium_no_anchor in Hytd by assumption.
    repeat split; try assumption; try congruence.
    rewrite Hp, E. apply linear_projection_zero. now rewrite Hytd.
Qed.

Lemma ledger_assigned_no_anchor : no_anchor ledger_assigned.
Proof.
  intros t Ht. simpl in Ht. destruct Ht as [<- | []]. reflexivity.
Qed.

Lemma no_premium_trades_witness :
  no_anchor ledger_assigned /\
  get_first_trade_date ledger_assigned = None /\
  get_current_week_number ledger_assigned clock_jan22 = 0.
Proof.
  split; [exact ledger_assigned_no_anchor |].
  destruct no_premium_trades_spec as (_ & _ & H).
  destruct (H ledger_assigned clock_jan22 ledger_assigned_no_anchor) as (E & Wk & _).
  split; assumption.
Defined.

(** * Further properties of the store *)

(** ** Tickers and positions *)

Lemma upper_ascii_idem (c : ascii) : upper_ascii (upper_ascii c) = upper_ascii c.
Proof.
  destruct c as [[] [] [] [] [] [] [] []]; reflexivity.
Qed.

Lemma upper_idem (s : string) : upper (upper s) = upper s.
Proof.
  induction s as [| c s IH]; simpl; [reflexivity |].
  now rewrite upper_ascii_idem, IH.
Qed.

Lemma get_position_found (db : Database) (tk : string) (p : Position) :
  get_position db tk = Some p -> In p (positions db) /\ pos_ticker p = upper tk.
Proof.
  unfold get_position. intros H. apply find_some in H.
  destruct H as [Hin He]. apply String.eqb_eq in He. auto.
Qed.

Lemma get_position_missing (db : Database) (tk : string) :
  get_position db tk = None ->
  forall p, In p (positions db) -> pos_ticker p <> upper tk.
Proof.
  unfold get_position. intros H p Hp E.
  apply (find_none _ _ H) in Hp. apply String.eqb_neq in Hp. contradiction.
Qed.

(** X1: lookup-or-insert is idempotent and ignores ASCII case. *)
Theorem get_or_create_position_idempotent (db : Database) (tk tk' : string) :
  upper tk' = upper tk ->
  let (p, db1) := get_or_create_position db tk in
  pos_ticker p = upper tk /\
  In p (positions db1) /\
  get_or_create_position db1 tk' = (p, db1).
Proof.
  intros E.
  pose proof (get_or_create_position_spec db tk) as H.
  destruct (get_or_create_position db tk) as [p db1].
  destruct H as (Hp & _ & _).
  destruct (get_position_found _ _ _ Hp) as [Hin Htk].
  repeat split; try assumption.
  unfold get_or_create_position, get_position in *. rewrite E. now rewrite Hp.
Qed.

Lemma get_or_create_position_idempotent_witness :
  upper "Fly" = upper "fly" /\
  get_or_create_position (snd (get_or_create_position empty_store "fly")) "Fly"
  = get_or_create_position empty_store "fly".
Proof.
  split; [reflexivity |].
  pose proof (get_or_create_position_idempotent empty_store "fly" "Fly" eq_refl) as H.
  destruct (get_or_create_position empty_store "fly") as [p db1].
  destruct H as (_ & _ & H). exact H.
Defined.

(** ** Consistency is kept by every write *)

Lemma next_rowid_fresh (ids : list Z) (x : Z) : In x ids -> x < next_rowid ids.
Proof.
  unfold next_rowid. induction ids as [| y ids IH]; simpl; [tauto |].
  intros [-> | H]; [lia |]. specialize (IH H). lia.
Qed.

Lemma next_rowid_not_in (ids : list Z) : ~ In (next_rowid ids) ids.
Proof. intros H. apply next_rowid_fresh in H. lia. Qed.

Lemma NoDup_snoc {A : Type} (l : list A) (x : A) :
  NoDup l -> ~ In x l -> NoDup (l ++ [x]).
Proof.
  intros Hl Hx. induction Hl as [| y l Hy Hl IH]; simpl.
  - constructor; [tauto | constructor].
  - constructor.
    + rewrite in_app_iff. simpl. intros [H | [H | []]]; [tauto |].
      subst. apply Hx. now left.
    + apply IH. intros H. apply Hx. now right.
Qed.

Lemma get_or_create_position_ok (db : Database) (tk : string) :
  store_ok db ->
  let (p, db1) := get_or_create_position db tk in
  store_ok db1 /\ In p (positions db1) /\ pos_ticker p = upper tk /\
  trades db1 = trades db.
Proof.
  intros (Hid & Htk & Htr & Hup & Href).
  unfold get_or_create_position.
  destruct (get_position db tk) as [p |] eqn:E.
  - destruct (get_position_found _ _ _ E) as [Hin Hp].
    repeat split; assumption.
  - pose proof (get_position_missing _ _ E) as Hmiss.
    unfold create_position. cbn [positions trades].
    split; [| split; [| split]]; try reflexivity.
    + unfold store_ok. cbn [positions trades]. rewrite !map_app. simpl.
      split; [| split; [| split; [| split]]].
      * apply NoDup_snoc; [assumption | apply next_rowid_not_in].
      * apply NoDup_snoc; [assumption |].
        intros H. apply in_map_iff in H. destruct H as (q & Hq & Hin).
        now apply (Hmiss q Hin).
      * assumption.
      * intros p Hp. apply in_app_or in Hp. destruct Hp as [Hp | [<- | []]].
        -- now apply Hup.
        -- apply upper_idem.
      * intros t Ht. destruct (Href t Ht) as (p & Hp & Hpid & Hpt).
        exists p. split; [apply in_or_app; now left | auto].
    + apply in_or_app. right. now left.
Qed.

Lemma update_position_ok (db : Database) (pid : Z)
    (sh : option Z) (cb pr : option Q) :
  store_ok db -> store_ok (update_position db pid sh cb pr).
Proof.
  intros (Hid & Htk & Htr & Hup & Href).
  unfold store_ok, update_position. cbn [positions trades].
  set (f := fun p : Position => if pos_id p =? pid then _ else p).
  assert (Eid : map pos_id (map f (positions db)) = map pos_id (positions db)).
  { rewrite map_map. apply map_ext. intros p. unfold f.
    destruct (pos_id p =? pid); reflexivity. }
  assert (Etk : map pos_ticker (map f (positions db)) = map pos_ticker (positions db)).
  { rewrite map_map. apply map_ext. intros p. unfold f.
    destruct (pos_id p =? pid); reflexivity. }
  rewrite Eid, Etk. repeat split; try assumption.
  - intros p Hp. apply in_map_iff in Hp. destruct Hp as (q & <- & Hq).
    unfold f. destruct (pos_id q =? pid); cbn [pos_ticker]; now apply Hup.
  - intros t Ht. destruct (Href t Ht) as (p & Hp & Hpid & Hpt).
    exists (f p). split; [now apply in_map |].
    unfold f. destruct (pos_id p =? pid); cbn [pos_id pos_ticker]; auto.
Qed.

Lemma create_trade_ok (db : Database) (clk : Clock) (tk : string) (ty : TradeType)
    (k : option Q) (expi : option date) (prem : Q) (qty : Z)
    (dlt : option Q) (nts : option string) :
  store_ok db -> store_ok (snd (create_trade db clk tk ty k expi prem qty dlt nts)).
Proof.
  intros Hok. unfold create_trade.
  pose proof (get_or_create_position_ok db tk Hok) as H.
  destruct (get_or_create_position db tk) as [p db1].
  destruct H as ((Hid & Htk & Htr & Hup & Href) & Hin & Hp & _).
  unfold store_ok. cbn [snd positions trades].
  repeat split; try assumption.
  - rewrite map_app. simpl. apply NoDup_snoc; [assumption | apply next_rowid_not_in].
  - intros t Ht. apply in_app_or in Ht. destruct Ht as [Ht | [<- | []]].
    + now apply Href.
    + exists p. cbn [position_id ticker]. auto.
Qed.

Lemma update_trade_ok (db : Database) (tid : Z)
    (st : option Status) (closed : option timestamp) :
  store_ok db -> store_ok (update_trade db tid st closed).
Proof.
  intros Hok.
  assert (G : store_ok
                (mkDatabase (positions db)
                   (map (fun t =>
                           if trade_id t =? tid then
                             mkTrade (trade_id t) (position_id t) (trade_type t)
                               (ticker t) (strike t) (expiration t) (premium t)
                               (quantity t) (delta t) (set_opt st (status t))
                               (notes t) (opened_at t)
                               (match closed with
                                | Some c => Some c
                                | None => closed_at t
                                end)
                           else t)
                      (trades db)))).
  { destruct Hok as (Hid & Htk & Htr & Hup & Href).
    unfold store_ok. cbn [positions trades].
    repeat split; try assumption.
    - rewrite map_map.
      erewrite map_ext; [exact Htr |].
      intros t. cbv beta. destruct (trade_id t =? tid); reflexivity.
    - intros t Ht. apply in_map_iff in Ht. destruct Ht as (t0 & <- & Ht0).
      destruct (Href t0 Ht0) as (p & Hp & Hpid & Hpt). exists p.
      destruct (trade_id t0 =? tid); cbn [position_id ticker]; auto. }
  unfold update_trade. destruct st, closed; assumption.
Qed.

(** X2: the empty store is consistent and every write path of the trade
    dialog keeps it so: ids stay unique, tickers unique and upper-case, and
    each trade attached to the position of its ticker. *)
Theorem writes_keep_store_ok :
  store_ok empty_store /\
  (forall db, store_ok db ->
     (forall clk csp cc ty, store_ok (_submit_trade db clk csp cc ty)) /\
     (forall clk f db', _submit_assignment db clk f = Ok db' -> store_ok db') /\
     (forall now f, store_ok (_submit_close db now f))).
Proof.
  split.
  - unfold store_ok, empty_store. simpl.
    repeat split; try constructor; intros ? [].
  - intros db Hok. split; [| split].
    + intros clk csp cc ty. unfold _submit_trade.
      destruct (is_empty _); [assumption |].
      destruct (Qle_bool _ 0); [assumption |].
      now apply create_trade_ok.
    + intros clk f db' H. unfold _submit_assignment in H.
      destruct (is_empty _); [injection H as <-; assumption |].
      pose proof (get_or_create_position_ok db (upper (strip (assign_ticker f))) Hok)
        as G.
      destruct (get_or_create_position db (upper (strip (assign_ticker f))))
        as [p db1].
      destruct G as (Hok1 & _).
      destruct (assign_type f =? 0).
      * destruct (0 <? shares_owned p + assign_shares f).
        -- unfold truediv in H.
           destruct (shares_owned p + assign_shares f =? 0); [discriminate |].
           cbn [bind] in H. injection H as <-.
           now apply create_trade_ok, update_position_ok.
        -- cbn [bind] in H. injection H as <-.
           now apply create_trade_ok, update_position_ok.
      * cbn [bind] in H. injection H as <-.
        now apply create_trade_ok, update_position_ok.
    + intros now f. unfold _submit_close, close_trade. now apply update_trade_ok.
Qed.

Lemma writes_keep_store_ok_witness :
  store_ok empty_store /\
  store_ok (_submit_close
              (_submit_trade empty_store clock_jan22 sample_csp_form sample_cc_form CSP)
              (at_noon (mkdate 2026 2 20)) (mkCloseForm 1 PickExpired)).
Proof.
  destruct writes_keep_store_ok as [H0 H]. split; [exact H0 |].
  destruct (H _ (proj1 (H empty_store H0) clock_jan22 sample_csp_form sample_cc_form CSP))
    as (_ & _ & Hc).
  apply Hc.
Defined.

(** ** Listing trades *)

Lemma iso_leb_iff (a b : date) :
  iso_leb a b = true <->
  year a < year b \/
  (year a = year b /\ (month a < month b \/ (month a = month b /\ day a <= day b))).
Proof.
  unfold iso_leb.
  rewrite !orb_true_iff, !andb_true_iff, !orb_true_iff, !andb_true_iff,
    !Z.ltb_lt, !Z.eqb_eq, !Z.leb_le.
  tauto.
Qed.

Lemma iso_leb_false_iff (a b : date) :
  iso_leb a b = false <->
  year b < year a \/
  (year a = year b /\ (month b < month a \/ (month a = month b /\ day b < day a))).
Proof.
  rewrite <- not_true_iff_false, iso_leb_iff. lia.
Qed.

Lemma time_leb_iff (a b : timestamp) :
  time_leb a b = true <->
  ts_hour a < ts_hour b \/
  (ts_hour a = ts_hour b /\
   (ts_minute a < ts_minute b \/
    (ts_minute a = ts_minute b /\ ts_second a <= ts_second b))).
Proof.
  unfold time_leb.
  rewrite !orb_true_iff, !andb_true_iff, !orb_true_iff, !andb_true_iff,
    !Z.ltb_lt, !Z.eqb_eq, !Z.leb_le.
  tauto.
Qed.

Lemma ts_leb_iff (a b : timestamp) :
  ts_leb a b = true <->
  iso_leb (ts_date b) (ts_date a) = false \/
  (iso_leb (ts_date a) (ts_date b) = true /\ iso_leb (ts_date b) (ts_date a) = true /\
   time_leb a b = true).
Proof.
  unfold ts_leb.
  destruct (iso_leb (ts_date a) (ts_date b)) eqn:E1,
           (iso_leb (ts_date b) (ts_date a)) eqn:E2;
    try (intuition congruence).
  apply iso_leb_false_iff in E1, E2. lia.
Qed.

Ltac ts_order :=
  rewrite ?ts_leb_iff, ?iso_leb_false_iff, ?iso_leb_iff, ?time_leb_iff in *; lia.

Lemma ts_leb_total (a b : timestamp) : ts_leb a b = false -> ts_leb b a = true.
Proof.
  intros H. apply not_true_iff_false in H. ts_order.
Qed.

Lemma ts_leb_trans (a b c : timestamp) :
  ts_leb a b = true -> ts_leb b c = true -> ts_leb a c = true.
Proof. intros H1 H2. ts_order. Qed.

Lemma newest_first_perm (rows : list Trade) : Permutation (newest_first rows) rows.
Proof. apply order_by_perm. Qed.

Lemma newest_first_sorted (rows : list Trade) :
  StronglySorted (fun a b => ts_leb (opened_at b) (opened_at a) = true)
    (newest_first rows).
Proof.
  apply order_by_sorted.
  - intros x y. apply ts_leb_total.
  - intros x y z Hxy Hyz. eapply ts_leb_trans; eauto.
Qed.

Lemma filter_all {A : Type} (l : list A) : filter (fun _ => true) l = l.
Proof. induction l as [| x l IH]; simpl; [reflexivity | now rewrite IH]. Qed.

Lemma text_filter_iff (arg : option string) (column : string) :
  text_filter arg column = true <->
  arg = None \/ arg = Some ""%string \/ arg = Some column.
Proof.
  unfold text_filter. destruct arg as [s |]; [| tauto].
  destruct s as [| c s]; simpl; [tauto |].
  rewrite String.eqb_eq. split.
  - intros ->. auto.
  - intros [H | [H | H]]; congruence.
Qed.

(** X3: [get_all_trades] lists, newest first, exactly the trades whose
    status and type texts equal the given filters; [None] and the empty
    string filter nothing, and without filters every trade is listed once. *)
Theorem get_all_trades_spec (db : Database) (status_arg trade_type_arg : option string) :
  StronglySorted (fun a b => ts_leb (opened_at b) (opened_at a) = true)
    (get_all_trades db status_arg trade_type_arg) /\
  (forall t,
     In t (get_all_trades db status_arg trade_type_arg) <->
     In t (trades db) /\
     (status_arg = None \/ status_arg = Some ""%string \/
      status_arg = Some (status_text (status t))) /\
     (trade_type_arg = None \/ trade_type_arg = Some ""%string \/
      trade_type_arg = Some (type_text (trade_type t)))) /\
  Permutation (get_all_trades db None None) (trades db) /\
  get_all_trades db (Some ""%string) (Some ""%string) = get_all_trades db None None.
Proof.
  unfold get_all_trades. split; [apply newest_first_sorted |].
  split; [| split; [| reflexivity]].
  - intros t. split.
    + intros H. apply (Permutation_in _ (newest_first_perm _)) in H.
      apply filter_In in H. destruct H as [Hin H]. apply andb_true_iff in H.
      rewrite !text_filter_iff in H. tauto.
    + intros (Hin & Hs & Ht).
      apply (Permutation_in _ (Permutation_sym (newest_first_perm _))).
      apply filter_In. split; [assumption |].
      apply andb_true_iff. rewrite !text_filter_iff. tauto.
  - rewrite newest_first_perm. cbn [text_filter andb].
    now rewrite filter_all.
Qed.

(** ** Closing trades *)

Lemma close_trade_rows (db : Database) (now : timestamp) (tid : Z) (st : Status) :
  close_trade db now tid st
  = mkDatabase (positions db)
      (map (fun t => if trade_id t =? tid then closed_row st now t else t) (trades db)).
Proof. reflexivity. Qed.

Lemma map_other_ids (st : Status) (now : timestamp) (tid : Z) (l : list Trade) :
  (forall t, In t l -> trade_id t <> tid) ->
  map (fun t => if trade_id t =? tid then closed_row st now t else t) l = l.
Proof.
  induction l as [| x l IH]; simpl; intros H; [reflexivity |].
  destruct (Z.eqb_spec (trade_id x) tid) as [E | _].
  - exfalso. apply (H x); auto.
  - rewrite IH; auto.
Qed.

(** X4: closing a trade rewrites only the status and closing time of the
    rows with that id: positions, every other trade, and each trade's
    opening time, premium and type stay, so the anchor date and the week
    number do not move; an id that no trade has changes nothing. *)
Theorem close_trade_frame (db : Database) (now : timestamp) (tid : Z) (st : Status) :
  let db' := close_trade db now tid st in
  positions db' = positions db /\
  map trade_id (trades db') = map trade_id (trades db) /\
  map opened_at (trades db') = map opened_at (trades db) /\
  map premium_amount (trades db') = map premium_amount (trades db) /\
  (forall t, In t (trades db) -> trade_id t <> tid -> In t (trades db')) /\
  (forall t', In t' (trades db') -> trade_id t' = tid ->
     status t' = st /\ closed_at t' = Some now) /\
  get_first_trade_date db' = get_first_trade_date db /\
  (forall clk, get_current_week_number db' clk = get_current_week_number db clk) /\
  ((forall t, In t (trades db) -> trade_id t <> tid) -> trades db' = trades db).
Proof.
  cbv zeta. rewrite close_trade_rows. cbn [positions trades].
  set (f := fun t => if trade_id t =? tid then closed_row st now t else t).
  assert (Hfirst : get_first_trade_date (mkDatabase (positions db) (map f (trades db)))
                   = get_first_trade_date db).
  { unfold get_first_trade_date. cbn [trades]. f_equal.
    induction (trades db) as [| t l IH]; simpl; [reflexivity |].
    assert (Ety : type_in_cc_csp (f t) = type_in_cc_csp t)
      by (unfold f; destruct (trade_id t =? tid); reflexivity).
    assert (Eop : opened_at (f t) = opened_at t)
      by (unfold f; destruct (trade_id t =? tid); reflexivity).
    rewrite Ety. destruct (type_in_cc_csp t); simpl; rewrite ?Eop, IH; reflexivity. }
  split; [reflexivity |].
  split; [rewrite map_map; apply map_ext; intros t; unfold f;
          destruct (trade_id t =? tid); reflexivity |].
  split; [rewrite map_map; apply map_ext; intros t; unfold f;
          destruct (trade_id t =? tid); reflexivity |].
  split; [rewrite map_map; apply map_ext; intros t; unfold f;
          destruct (trade_id t =? tid); reflexivity |].
  split.
  { intros t Ht Hne. apply in_map_iff. exists t. split; [| assumption].
    unfold f. destruct (Z.eqb_spec (trade_id t) tid); [contradiction | reflexivity]. }
  split.
  { intros t' Ht' Hid. apply in_map_iff in Ht'. destruct Ht' as (t & <- & Ht).
    unfold f in *. destruct (Z.eqb_spec (trade_id t) tid) as [E | N].
    - split; reflexivity.
    - contradiction. }
  split; [exact Hfirst |].
  split.
  { intros clk. unfold get_current_week_number. now rewrite Hfirst. }
  intros H. now apply map_other_ids.
Qed.

Lemma close_trade_frame_witness :
  (forall t, In t (trades ledger_jan) -> trade_id t <> 7) /\
  trades (close_trade ledger_jan (at_noon (mkdate 2026 1 22)) 7 EXPIRED)
  = trades ledger_jan.
Proof.
  assert (H : forall t, In t (trades ledger_jan) -> trade_id t <> 7).
  { intros t Ht. simpl in Ht.
    repeat (destruct Ht as [<- | Ht]; [discriminate |]). contradiction. }
  split; [exact H |].
  apply (close_trade_frame ledger_jan (at_noon (mkdate 2026 1 22)) 7 EXPIRED), H.
Defined.








(** ** Entering trades *)

Lemma find_app_some {A : Type} (f : A -> bool) (l1 l2 : list A) (x : A) :
  find f l1 = Some x -> find f (l1 ++ l2) = Some x.
Proof.
  induction l1 as [| y l1 IH]; simpl; [discriminate |].
  destruct (f y); auto.
Qed.

(** The row [create_trade] appends and the position it hangs on. *)
Lemma create_trade_row (db : Database) (clk : Clock) (tk : string) (ty : TradeType)
    (k : option Q) (expi : option date) (prem : Q) (qty : Z)
    (dlt : option Q) (nts : option string) :
  let db' := snd (create_trade db clk tk ty k expi prem qty dlt nts) in
  exists rowid p,
    trades db' = trades db ++
                 [mkTrade rowid (pos_id p) ty (upper tk) k expi prem qty dlt OPEN nts
                    (sql_now clk) None] /\
    get_position db' tk = Some p /\
    (forall tk' q, get_position db tk' = Some q -> get_position db' tk' = Some q).
Proof.
  cbv zeta. unfold create_trade.
  pose proof (get_or_create_position_spec db tk) as H.
  unfold get_or_create_position in *.
  destruct (get_position db tk) as [p |] eqn:E.
  - destruct H as (Hp & _ & _). exists (next_rowid (map trade_id (trades db))), p.
    cbn [snd trades positions]. repeat split; auto.
  - unfold create_position in *. destruct H as (Hp & _ & _).
    eexists; eexists. cbn [snd trades positions]. split; [reflexivity |].
    split; [exact Hp |].
    intros tk' q Hq. unfold get_position in *. cbn [positions].
    now apply find_app_some.
Qed.

Lemma Qle_bool_false (x y : Q) : Qle_bool x y = false <-> (y < x)%Q.
Proof.
  rewrite <- not_true_iff_false, Qle_bool_iff. split.
  - apply Qnot_le_lt.
  - apply Qlt_not_le.
Qed.

Lemma submit_trade_accepted (db : Database) (clk : Clock) (csp cc : TradeForm)
    (ty : TradeType) :
  let f := match ty with CSP => csp | _ => cc end in
  let tk := upper (strip (form_ticker f)) in
  let db' := _submit_trade db clk csp cc ty in
  tk <> ""%string -> (0 < form_premium f)%Q ->
  exists t p,
    trades db' = trades db ++ [t] /\
    trade_type t = ty /\ ticker t = tk /\ status t = OPEN /\ closed_at t = None /\
    opened_at t = sql_now clk /\
    premium t = form_premium f /\ quantity t = form_quantity f /\
    get_position db' tk = Some p /\ position_id t = pos_id p /\
    (forall tk' q, get_position db tk' = Some q -> get_position db' tk' = Some q).
Proof.
  cbv zeta. unfold _submit_trade.
  set (f := match ty with CSP => csp | _ => cc end).
  set (tk := upper (strip (form_ticker f))).
  intros Hne Hpos. rewrite (is_empty_false _ Hne).
  apply Qle_bool_false in Hpos. rewrite Hpos.
  match goal with |- context [create_trade db clk tk ty ?k ?e ?pr ?q ?d ?n] =>
    destruct (create_trade_row db clk tk ty k e pr q d n)
      as (rowid & p & Htr & Hp & Hold)
  end.
  eexists. exists p. split; [exact Htr |].
  cbn [trade_type ticker status closed_at opened_at premium quantity position_id].
  repeat split; try assumption.
  subst tk. apply upper_idem.
Qed.

(** X6: the trade tabs reject an empty ticker and a premium that is not
    positive, leaving the store untouched; otherwise they append one OPEN
    trade stamped with the store's clock, under the upper-cased ticker and
    attached to that ticker's position, without disturbing the positions
    already on record. *)
Theorem submit_trade_spec (db : Database) (clk : Clock) (csp cc : TradeForm)
    (ty : TradeType) :
  let f := match ty with CSP => csp | _ => cc end in
  let tk := upper (strip (form_ticker f)) in
  let db' := _submit_trade db clk csp cc ty in
  (tk = ""%string \/ (form_premium f <= 0)%Q -> db' = db) /\
  (tk <> ""%string -> (0 < form_premium f)%Q ->
   exists t p,
     trades db' = trades db ++ [t] /\
     trade_type t = ty /\ ticker t = tk /\ status t = OPEN /\ closed_at t = None /\
     opened_at t = sql_now clk /\
     premium t = form_premium f /\ quantity t = form_quantity f /\
     get_position db' tk = Some p /\ position_id t = pos_id p /\
     (forall tk' q, get_position db tk' = Some q -> get_position db' tk' = Some q)).
Proof.
  cbv zeta. split.
  - unfold _submit_trade. intros [H | H].
    + rewrite H. reflexivity.
    + destruct (is_empty _); [reflexivity |].
      apply Qle_bool_iff in H. now rewrite H.
  - apply submit_trade_accepted.
Qed.

Lemma submit_trade_witness :
  upper (strip (form_ticker sample_csp_form)) <> ""%string /\
  (0 < form_premium sample_csp_form)%Q /\
  exists t,
    trades (_submit_trade ledger_jan clock_jan22 sample_csp_form sample_cc_form CSP)
    = trades ledger_jan ++ [t] /\
    ticker t = "SOFI"%string /\ status t = OPEN.
Proof.
  split; [discriminate |]. split; [reflexivity |].
  destruct (proj2 (submit_trade_spec ledger_jan clock_jan22 sample_csp_form
                     sample_cc_form CSP) ltac:(discriminate) eq_refl)
    as (t & p & Htr & _ & Htk & Hst & _).
  exists t. split; [exact Htr |]. split; [exact Htk | exact Hst].
Defined.

Lemma sql_min_snoc (l : list date) (d : date) :
  sql_min (l ++ [d])
  = Some (match sql_min l with
          | None => d
          | Some m => if iso_leb m d then m else d
          end).
Proof.
  induction l as [| x l IH]; [reflexivity |].
  simpl. rewrite IH. destruct (sql_min l) as [m |]; [| reflexivity].
  f_equal.
  destruct (iso_leb m d) eqn:Emd, (iso_leb x m) eqn:Exm; rewrite ?Emd;
    try reflexivity;
    destruct (iso_leb x d) eqn:Exd; try reflexivity; exfalso;
    rewrite ?iso_leb_iff, ?iso_leb_false_iff in *; lia.
Qed.

Lemma first_trade_date_snoc (ps ps' : list Position) (l : list Trade) (t : Trade) :
  get_first_trade_date (mkDatabase ps' (l ++ [t]))
  = if type_in_cc_csp t then
      Some (match get_first_trade_date (mkDatabase ps l) with
            | None => opened_on t
            | Some m => if iso_leb m (opened_on t) then m else opened_on t
            end)
    else get_first_trade_date (mkDatabase ps l).
Proof.
  unfold get_first_trade_date. cbn [trades]. rewrite filter_app. simpl.
  destruct (type_in_cc_csp t).
  - rewrite map_app. simpl. apply sql_min_snoc.
  - now rewrite app_nil_r.
Qed.

Lemma open_trade_not_selected (cond : Trade -> bool) (l : list Trade) (t : Trade) :
  status t = OPEN ->
  filter (fun x => type_in_cc_csp x && status_not_open x && cond x) (l ++ [t])
  = filter (fun x => type_in_cc_csp x && status_not_open x && cond x) l.
Proof.
  intros H. rewrite filter_app. simpl. unfold status_not_open at 2. rewrite H.
  rewrite andb_false_r. simpl. apply app_nil_r.
Qed.

(** The summary and the rankings read only the anchor and the rows that
    are CC/CSP and not open. *)
Lemma queries_read_selection (db db' : Database) :
  get_first_trade_date db' = get_first_trade_date db ->
  (forall cond,
     filter (fun x => type_in_cc_csp x && status_not_open x && cond x) (trades db')
     = filter (fun x => type_in_cc_csp x && status_not_open x && cond x) (trades db)) ->
  forall clk, get_premium_summary db' clk = get_premium_summary db clk.
Proof.
  intros Hf Hsel clk.
  unfold get_premium_summary, get_current_week_number, select_premium_total,
    select_premium_group_by.
  rewrite Hf. rewrite !Hsel. reflexivity.
Qed.

Lemma submit_trade_rows (db : Database) (clk : Clock) (csp cc : TradeForm)
    (ty : TradeType) :
  _submit_trade db clk csp cc ty = db \/
  exists t,
    trades (_submit_trade db clk csp cc ty) = trades db ++ [t] /\
    status t = OPEN /\ trade_type t = ty /\ opened_at t = sql_now clk.
Proof.
  unfold _submit_trade.
  destruct (is_empty _); [now left |].
  destruct (Qle_bool _ 0); [now left |]. right.
  match goal with |- context [create_trade db clk ?tk ty ?k ?e ?pr ?q ?d ?n] =>
    destruct (create_trade_row db clk tk ty k e pr q d n) as (rowid & p & Htr & _)
  end.
  eexists. split; [exact Htr |]. repeat split.
Qed.

(** X7: a trade entered through the dialog is stored OPEN, so it changes no
    realized-premium total and no ranking; the whole summary is the same
    before and after when the anchor does not move, which is the case for
    every trade type other than CC/CSP and for every entry stamped on or
    after the anchor date. *)
Theorem submit_trade_premium_frame (db : Database) (clk : Clock) (csp cc : TradeForm)
    (ty : TradeType) :
  let db' := _submit_trade db clk csp cc ty in
  (forall cond, realized_premium cond (trades db') = realized_premium cond (trades db)) /\
  (forall clk' period limit,
     get_top_performers db' clk' period limit = get_top_performers db clk' period limit) /\
  (In ty [ASSIGNMENT; CLOSE; ROLL; BUY; SELL] \/
   (exists a, get_first_trade_date db = Some a /\
              iso_leb a (ts_date (sql_now clk)) = true) ->
   forall clk', get_premium_summary db' clk' = get_premium_summary db clk').
Proof.
  cbv zeta.
  destruct (submit_trade_rows db clk csp cc ty) as [-> | (t & Htr & Hst & Hty & Hop)];
    [repeat split; reflexivity |].
  assert (Hsel : forall cond,
     filter (fun x => type_in_cc_csp x && status_not_open x && cond x)
       (trades (_submit_trade db clk csp cc ty))
     = filter (fun x => type_in_cc_csp x && status_not_open x && cond x) (trades db))
    by (intros cond; rewrite Htr; now apply open_trade_not_selected).
  split; [| split].
  - intros cond. unfold realized_premium, realized. now rewrite Hsel.
  - intros clk' period limit.
    unfold get_top_performers, select_premium_group_by. now rewrite !Hsel.
  - intros H. apply queries_read_selection; [| exact Hsel].
    destruct db as [ps l]. cbn [trades] in *.
    destruct (_submit_trade (mkDatabase ps l) clk csp cc ty) as [ps' l'].
    cbn [trades] in Htr. subst l'.
    rewrite (first_trade_date_snoc ps ps').
    destruct H as [H | (a & Ha & Hle)].
    + replace (type_in_cc_csp t) with false; [reflexivity |].
      unfold type_in_cc_csp. rewrite Hty. simpl in H.
      destruct H as [<- | [<- | [<- | [<- | [<- | []]]]]]; reflexivity.
    + rewrite Ha. unfold opened_on, sql_date. rewrite Hop, Hle.
      now destruct (type_in_cc_csp t).
Qed.

Lemma submit_trade_premium_frame_witness :
  (exists a, get_first_trade_date ledger_jan = Some a /\
             iso_leb a (ts_date (sql_now clock_jan22)) = true) /\
  get_premium_summary
    (_submit_trade ledger_jan clock_jan22 sample_csp_form sample_cc_form CSP) clock_jan22
  = get_premium_summary ledger_jan clock_jan22.
Proof.
  assert (H : exists a, get_first_trade_date ledger_jan = Some a /\
                        iso_leb a (ts_date (sql_now clock_jan22)) = true)
    by (eexists; split; reflexivity).
  split; [exact H |].
  apply (submit_trade_premium_frame ledger_jan clock_jan22 sample_csp_form
           sample_cc_form CSP). now right.
Defined.

(** X8: the first CSP or covered call entered into a ledger without one
    makes its entry day (the store's UTC date) the anchor; from then on the
    week number is [floor((today - entry day).days / 7) + 1], which is 1 on
    the entry day and not positive while the local date is still behind. *)
Theorem first_trade_sets_anchor (db : Database) (clk : Clock) (csp cc : TradeForm)
    (ty : TradeType) :
  let f := match ty with CSP => csp | _ => cc end in
  let db' := _submit_trade db clk csp cc ty in
  let entry := ts_date (sql_now clk) in
  no_anchor db -> In ty [CSP; CC] ->
  upper (strip (form_ticker f)) <> ""%string -> (0 < form_premium f)%Q ->
  get_first_trade_date db' = Some entry /\
  forall clk',
    get_current_week_number db' clk'
    = (toordinal (date_today clk') - toordinal entry) / 7 + 1 /\
    (toordinal (date_today clk') = toordinal entry ->
     get_current_week_number db' clk' = 1) /\
    (toordinal (date_today clk') < toordinal entry ->
     get_current_week_number db' clk' <= 0).
Proof.
  cbv zeta. intros Hno Hty Hne Hpos.
  destruct (submit_trade_accepted db clk csp cc ty Hne Hpos)
    as (t & p & Htr & Htt & _ & _ & _ & Hop & _).
  assert (Hf : get_first_trade_date (_submit_trade db clk csp cc ty)
               = Some (ts_date (sql_now clk))).
  { destruct db as [ps l]. cbn [trades] in *.
    destruct (_submit_trade (mkDatabase ps l) clk csp cc ty) as [ps' l'].
    cbn [trades] in Htr. subst l'.
    rewrite (first_trade_date_snoc ps ps').
    apply first_trade_date_none in Hno. rewrite Hno.
    unfold opened_on, sql_date. rewrite Hop.
    replace (type_in_cc_csp t) with true; [reflexivity |].
    unfold type_in_cc_csp. rewrite Htt. simpl in Hty.
    destruct Hty as [<- | [<- | []]]; reflexivity. }
  split; [exact Hf |].
  intros clk'. unfold get_current_week_number. rewrite Hf. unfold days_between.
  repeat split.
  - intros ->. rewrite Z.sub_diag. reflexivity.
  - intros Hlt. Z.div_mod_to_equations. lia.
Qed.

Lemma first_trade_sets_anchor_witness :
  no_anchor ledger_assigned /\ In CSP [CSP; CC] /\
  upper (strip (form_ticker sample_csp_form)) <> ""%string /\
  (0 < form_premium sample_csp_form)%Q /\
  get_first_trade_date
    (_submit_trade ledger_assigned clock_jan22 sample_csp_form sample_cc_form CSP)
  = Some (mkdate 2026 1 22).
Proof.
  split; [exact ledger_assigned_no_anchor |]. split; [simpl; tauto |].
  split; [discriminate |]. split; [reflexivity |].
  apply (first_trade_sets_anchor ledger_assigned clock_jan22 sample_csp_form
           sample_cc_form CSP ledger_assigned_no_anchor);
    [simpl; tauto | discriminate | reflexivity].
Defined.

(** ** The positions table with its premiums *)









Lemma sample_store_ok : store_ok sample_store.
Proof.
  unfold store_ok, sample_store. simpl. repeat split.
  - repeat constructor. intros [].
  - repeat constructor. intros [].
  - repeat constructor. intros [].
  - intros p [<- | []]. reflexivity.
  - intros t [<- | []]. exists sample_position. repeat split. now left.
Qed.


(** ** Assignments leave the other positions alone *)

Lemma find_map_same {A : Type} (g : A -> bool) (f : A -> A) (l : list A) :
  (forall x, g (f x) = g x) ->
  find g (map f l) = option_map f (find g l).
Proof.
  intros H. induction l as [| x l IH]; simpl; [reflexivity |].
  rewrite H. destruct (g x); [reflexivity | exact IH].
Qed.

Lemma get_position_after_update (db : Database) (pid : Z)
    (sh : option Z) (cb pr : option Q) (tk : string) :
  get_position (update_position db pid sh cb pr) tk
  = option_map
      (fun p =>
         if pos_id p =? pid then
           mkPosition (pos_id p) (pos_ticker p) (set_opt sh (shares_owned p))
             (set_opt cb (cost_basis p)) (set_opt pr (current_price p))
         else p)
      (get_position db tk).
Proof.
  unfold get_position, update_position. cbn [positions].
  apply find_map_same. intros p. destruct (pos_id p =? pid); reflexivity.
Qed.

Lemma NoDup_map_inj {A B : Type} (f : A -> B) (l : list A) (x y : A) :
  NoDup (map f l) -> In x l -> In y l -> f x = f y -> x = y.
Proof.
  induction l as [| a l IH]; simpl; intros Hnd Hx Hy E; [contradiction |].
  inversion Hnd as [| ? ? Hna Hnd']; subst.
  destruct Hx as [-> | Hx], Hy as [-> | Hy]; auto.
  - exfalso. apply Hna. rewrite E. now apply in_map.
  - exfalso. apply Hna. rewrite <- E. now apply in_map.
Qed.

(** The positions after an assignment: those of the store once the
    ticker's position exists, with the new share count written by id. *)
Lemma submit_assignment_positions (db : Database) (clk : Clock) (f : AssignmentForm) :
  is_empty (upper (strip (assign_ticker f))) = false ->
  exists db' cb,
    _submit_assignment db clk f = Ok db' /\
    let (p, db1) := get_or_create_position db (upper (strip (assign_ticker f))) in
    positions db'
    = positions
        (update_position db1 (pos_id p)
           (Some (if assign_type f =? 0
                  then shares_owned p + assign_shares f
                  else Z.max 0 (shares_owned p - assign_shares f)))
           cb None).
Proof.
  intros Hne. unfold _submit_assignment. rewrite Hne.
  pose proof (get_or_create_position_spec db (upper (strip (assign_ticker f)))) as H.
  destruct (get_or_create_position db (upper (strip (assign_ticker f)))) as [p db1].
  destruct H as (Hp & _ & _).
  destruct (assign_type f =? 0).
  - assert (Havg : exists avg,
              (if 0 <? shares_owned p + assign_shares f
               then truediv (cost_basis p * inject_Z (shares_owned p)
                             + assign_cost f * inject_Z (assign_shares f))
                      (shares_owned p + assign_shares f)
               else Ok (assign_cost f)) = Ok avg).
    { unfold truediv. destruct (Z.ltb_spec 0 (shares_owned p + assign_shares f));
        [| eauto].
      destruct (Z.eqb_spec (shares_owned p + assign_shares f) 0); [lia | eauto]. }
    destruct Havg as (avg & ->). cbn [bind].
    eexists; exists (Some avg). split; [reflexivity |].
    match goal with |- context [create_trade ?d clk ?tk ?ty ?k ?e ?pr ?q ?dl ?n] =>
      destruct (create_trade_spec d clk tk ty k e pr q dl n) as (t & _ & _ & _ & _ & Hpos)
    end.
    eapply Hpos. apply get_position_update. exact Hp.
  - cbn [bind]. eexists; exists None. split; [reflexivity |].
    match goal with |- context [create_trade ?d clk ?tk ?ty ?k ?e ?pr ?q ?dl ?n] =>
      destruct (create_trade_spec d clk tk ty k e pr q dl n) as (t & _ & _ & _ & _ & Hpos)
    end.
    eapply Hpos. apply get_position_update. exact Hp.
Qed.

(** X11: in a consistent store, recording an assignment for one ticker
    leaves the position of every other ticker as it was; and when no share
    count was negative and the shares entered are not negative, no share
    count is negative afterwards. *)
Theorem assignment_frame (db : Database) (clk : Clock) (f : AssignmentForm)
    (db' : Database) :
  store_ok db -> _submit_assignment db clk f = Ok db' ->
  (forall tk', upper tk' <> upper (strip (assign_ticker f)) ->
     get_position db' tk' = get_position db tk') /\
  (0 <= assign_shares f ->
   (forall q, In q (positions db) -> 0 <= shares_owned q) ->
   forall q, In q (positions db') -> 0 <= shares_owned q).
Proof.
  intros Hok Hsub.
  destruct (is_empty (upper (strip (assign_ticker f)))) eqn:Hne.
  { unfold _submit_assignment in Hsub. rewrite Hne in Hsub. injection Hsub as <-.
    split; auto. }
  destruct (submit_assignment_positions db clk f Hne) as (db2 & cb & Hok2 & Hpos).
  rewrite Hsub in Hok2. injection Hok2 as <-.
  pose proof (get_or_create_position_ok db (upper (strip (assign_ticker f))) Hok) as G.
  pose proof (get_or_create_position_spec db (upper (strip (assign_ticker f)))) as S.
  set (tk := upper (strip (assign_ticker f))) in *.
  assert (Hex : forall tk' q, get_position db tk' = Some q ->
                  get_position (snd (get_or_create_position db tk)) tk' = Some q).
  { intros tk' q Hq. unfold get_or_create_position.
    destruct (get_position db tk); [exact Hq |].
    unfold create_position, get_position in *. cbn [snd positions].
    now apply find_app_some. }
  assert (Hnew : forall tk', upper tk' <> tk -> get_position db tk' = None ->
                  get_position (snd (get_or_create_position db tk)) tk' = None).
  { intros tk' Hd Hq. unfold get_or_create_position.
    destruct (get_position db tk); [exact Hq |].
    unfold create_position, get_position in *. cbn [snd positions].
    rewrite find_app_none by assumption. simpl.
    destruct (String.eqb_spec (upper tk) (upper tk')) as [E | _]; [| reflexivity].
    exfalso. apply Hd. unfold tk in E. rewrite upper_idem in E. now rewrite <- E. }
  assert (Hshape : forall y,
            In y (positions (snd (get_or_create_position db tk))) ->
            In y (positions db) \/ shares_owned y = 0).
  { intros y. unfold get_or_create_position.
    destruct (get_position db tk); [auto |].
    unfold create_position. cbn [snd positions]. intros Hy.
    apply in_app_or in Hy. destruct Hy as [Hy | [<- | []]]; auto. }
  destruct (get_or_create_position db tk) as [p db1].
  destruct G as ((Hid1 & _) & Hin1 & Htk1 & _). destruct S as (Hp1 & Hh & _).
  cbn [snd] in Hex, Hnew, Hshape.
  split.
  - intros tk' Hd.
    rewrite (get_position_positions _ _ tk' Hpos), get_position_after_update.
    destruct (get_position db tk') as [q |] eqn:Eq.
    + rewrite (Hex _ _ Eq). cbn [option_map]. f_equal.
      destruct (get_position_found _ _ _ (Hex _ _ Eq)) as [Hq Hqt].
      destruct (Z.eqb_spec (pos_id q) (pos_id p)) as [E | _]; [| reflexivity].
      exfalso. apply Hd.
      rewrite <- Hqt, (NoDup_map_inj pos_id _ q p Hid1 Hq Hin1 E), Htk1.
      unfold tk. apply upper_idem.
    + now rewrite (Hnew _ Hd Eq).
  - intros Hn Hall q Hq. rewrite Hpos in Hq.
    unfold update_position in Hq. cbn [positions] in Hq.
    apply in_map_iff in Hq. destruct Hq as (x & <- & Hx).
    assert (Hall1 : forall y, In y (positions db1) -> 0 <= shares_owned y).
    { intros y Hy. destruct (Hshape y Hy) as [H | H]; [now apply Hall | lia]. }
    pose proof (Hall1 p Hin1) as Hp0. pose proof (Hall1 x Hx) as Hx0.
    destruct (pos_id x =? pos_id p); [| exact Hx0].
    cbn [shares_owned set_opt]. destruct (assign_type f =? 0); lia.
Qed.

Lemma assignment_frame_witness :
  store_ok (mkDatabase [sample_position] []) /\
  exists db',
    _submit_assignment (mkDatabase [sample_position] []) clock_jan22
      (mkAssignmentForm "rdw" 100 (8 # 1) 0 "") = Ok db' /\
    get_position db' "FLY" = Some sample_position.
Proof.
  assert (H : store_ok (mkDatabase [sample_position] [])).
  { unfold store_ok. simpl.
    split; [repeat constructor; simpl; tauto |].
    split; [repeat constructor; simpl; tauto |].
    split; [constructor |].
    split; [intros p [<- | []]; reflexivity | intros t []]. }
  split; [exact H |].
  eexists. split; [reflexivity |].
  apply (assignment_frame _ clock_jan22 (mkAssignmentForm "rdw" 100 (8 # 1) 0 "") _ H
           eq_refl). discriminate.
Defined.

(** ** Settings *)

Lemma key_is_text_iff (k : string) (row : string * string) :
  key_is_text k row = true <-> fst row = k.
Proof. unfold key_is_text. apply String.eqb_eq. Qed.

Lemma find_filter_other (k k' : string) (tbl : list (string * string)) :
  k' <> k ->
  find (key_is_text k') (filter (fun row => negb (key_is_text k row)) tbl)
  = find (key_is_text k') tbl.
Proof.
  intros Hne. induction tbl as [| row tbl IH]; [reflexivity |].
  cbn [filter find].
  destruct (key_is_text k row) eqn:Ek, (key_is_text k' row) eqn:Ek';
    cbn [negb find]; rewrite ?Ek'; try reflexivity; try exact IH.
  apply key_is_text_iff in Ek, Ek'. congruence.
Qed.

Lemma find_filter_self (k : string) (tbl : list (string * string)) :
  find (key_is_text k) (filter (fun row => negb (key_is_text k row)) tbl) = None.
Proof.
  induction tbl as [| [a b] tbl IH]; simpl; [reflexivity |].
  destruct (key_is_text k (a, b)) eqn:E; simpl; [exact IH |].
  now rewrite E.
Qed.

Lemma filter_idem {A : Type} (f : A -> bool) (l : list A) :
  filter f (filter f l) = filter f l.
Proof.
  rewrite filter_and. apply filter_ext. intros x. now destruct (f x).
Qed.

Lemma filter_keys_NoDup (f : string * string -> bool) (tbl : list (string * string)) :
  NoDup (map fst tbl) -> NoDup (map fst (filter f tbl)).
Proof.
  induction tbl as [| r tbl IH]; simpl; intros H; [constructor |].
  inversion H as [| ? ? Hr Ht]; subst.
  destruct (f r); simpl; [| now apply IH].
  constructor; [| now apply IH].
  intros Hin. apply Hr. apply in_map_iff in Hin. destruct Hin as (x & Ex & Hx).
  apply filter_In in Hx. apply in_map_iff. exists x. tauto.
Qed.

Lemma text_dict_set_fresh (d : list (string * string)) (k v : string) :
  ~ In k (map fst d) -> text_dict_set d k v = d ++ [(k, v)].
Proof.
  induction d as [| [k' v'] d IH]; simpl; intros H; [reflexivity |].
  destruct (String.eqb_spec k' k) as [-> | _]; [tauto |].
  rewrite IH by tauto. reflexivity.
Qed.

Lemma text_dict_of_distinct_rows (rows acc : list (string * string)) :
  NoDup (map fst (acc ++ rows)) ->
  fold_left (fun d row => text_dict_set d (fst row) (snd row)) rows acc = acc ++ rows.
Proof.
  revert acc. induction rows as [| [k v] rows IH]; intros acc H; simpl.
  - now rewrite app_nil_r.
  - rewrite text_dict_set_fresh.
    + rewrite IH; rewrite <- app_assoc; [reflexivity | exact H].
    + rewrite map_app in H. apply NoDup_remove_2 in H.
      intros Hin. apply H. apply in_or_app. now left.
Qed.

(** X12: a stored setting is read back; writing one key leaves every other
    key as it was, keeps keys unique and leaves a single row for the key,
    so that a second write replaces the first; on a table with unique keys
    the dict of all settings holds, for each key, the value [get_setting]
    returns. *)
Theorem settings_round_trip (tbl : list (string * string)) (k v : string) :
  get_setting (set_setting tbl k v) k = Some v /\
  (forall k', k' <> k -> get_setting (set_setting tbl k v) k' = get_setting tbl k') /\
  (forall v', set_setting (set_setting tbl k v) k v' = set_setting tbl k v') /\
  (NoDup (map fst tbl) ->
   NoDup (map fst (set_setting tbl k v)) /\
   forall k', text_dict_get (get_all_settings tbl) k' = get_setting tbl k').
Proof.
  unfold get_setting, set_setting. repeat split.
  - rewrite find_app_none by apply find_filter_self.
    simpl. unfold key_is_text. cbn [fst]. now rewrite String.eqb_refl.
  - intros k' Hne.
    destruct (find (key_is_text k') tbl) as [row |] eqn:E.
    + erewrite find_app_some; [reflexivity |].
      now rewrite find_filter_other.
    + rewrite find_app_none by (now rewrite find_filter_other).
      simpl. unfold key_is_text. cbn [fst].
      destruct (String.eqb_spec k k'); [congruence | reflexivity].
  - intros v'. rewrite filter_app, filter_idem. simpl.
    unfold key_is_text at 2. cbn [fst]. rewrite String.eqb_refl. simpl.
    now rewrite app_nil_r.
  - rewrite map_app. simpl. apply NoDup_snoc; [now apply filter_keys_NoDup |].
    intros Hin. apply in_map_iff in Hin. destruct Hin as ([a b] & Ea & Hx).
    apply filter_In in Hx. destruct Hx as [_ Hx]. simpl in Ea. subst a.
    unfold key_is_text in Hx. cbn [fst] in Hx. now rewrite String.eqb_refl in Hx.
  - intros k'. unfold get_all_settings, text_dict_get.
    now rewrite (text_dict_of_distinct_rows tbl []).
Qed.

Lemma settings_round_trip_witness :
  NoDup (map fst default_settings) /\
  text_dict_get (get_all_settings default_settings) "theme" = Some "dark"%string /\
  get_setting (set_setting default_settings "theme" "light") "theme" = Some "light"%string.
Proof.
  assert (H : NoDup (map fst default_settings)).
  { simpl. repeat constructor; simpl; intuition discriminate. }
  split; [exact H |].
  destruct (settings_round_trip default_settings "theme" "light") as (G1 & _ & _ & G4).
  split; [| exact G1].
  destruct (G4 H) as [_ G5]. rewrite G5. reflexivity.
Defined.

Lemma existsb_find (k : string) (tbl : list (string * string)) :
  existsb (key_is_text k) tbl = true <-> find (key_is_text k) tbl <> None.
Proof.
  induction tbl as [| row tbl IH]; simpl; [split; [discriminate | congruence] |].
  destruct (key_is_text k row); simpl; [split; [discriminate | reflexivity] | exact IH].
Qed.

Lemma get_setting_insert_or_ignore (tbl : list (string * string)) (k v k' : string) :
  get_setting (insert_or_ignore tbl k v) k'
  = match get_setting tbl k' with
    | Some x => Some x
    | None => if String.eqb k k' then Some v else None
    end.
Proof.
  unfold get_setting, insert_or_ignore.
  destruct (existsb (key_is_text k) tbl) eqn:E.
  - destruct (find (key_is_text k') tbl) eqn:F; [reflexivity |].
    destruct (String.eqb_spec k k') as [-> | _]; [| reflexivity].
    apply existsb_find in E. contradiction.
  - destruct (find (key_is_text k') tbl) as [row |] eqn:F.
    + now rewrite (find_app_some _ _ _ _ F).
    + rewrite find_app_none by assumption. simpl.
      unfold key_is_text. cbn [fst]. now destruct (String.eqb k k').
Qed.

Lemma insert_or_ignore_present (tbl : list (string * string)) (k v : string) :
  get_setting tbl k <> None -> insert_or_ignore tbl k v = tbl.
Proof.
  unfold get_setting, insert_or_ignore. intros H.
  replace (existsb (key_is_text k) tbl) with true; [reflexivity |].
  symmetry. apply existsb_find. destruct (find (key_is_text k) tbl); congruence.
Qed.

Lemma insert_or_ignore_NoDup (tbl : list (string * string)) (k v : string) :
  NoDup (map fst tbl) -> NoDup (map fst (insert_or_ignore tbl k v)).
Proof.
  intros H. unfold insert_or_ignore.
  destruct (existsb (key_is_text k) tbl) eqn:E; [exact H |].
  rewrite map_app. simpl. apply NoDup_snoc; [exact H |].
  intros Hin. apply in_map_iff in Hin. destruct Hin as (row & Er & Hr).
  apply not_true_iff_false in E. apply E, existsb_exists.
  exists row. split; [exact Hr | now apply key_is_text_iff].
Qed.

(** X13: initialising the schema never overwrites a stored setting: a key
    already present keeps its value, a missing default key gets its
    default, no other key appears; unique keys stay unique, and running the
    initialisation again changes nothing. *)
Theorem init_schema_settings (tbl : list (string * string)) :
  (forall k,
     get_setting (_init_schema tbl) k
     = match get_setting tbl k with
       | Some v => Some v
       | None => text_dict_get default_settings k
       end) /\
  (NoDup (map fst tbl) -> NoDup (map fst (_init_schema tbl))) /\
  _init_schema (_init_schema tbl) = _init_schema tbl.
Proof.
  assert (G : forall t k,
     get_setting (_init_schema t) k
     = match get_setting t k with
       | Some v => Some v
       | None => text_dict_get default_settings k
       end).
  { intros t k. unfold _init_schema, default_settings, text_dict_get. cbn [fold_left fst snd].
    rewrite !get_setting_insert_or_ignore.
    destruct (get_setting t k); [reflexivity |].
    unfold key_is_text. cbn [find fst snd].
    destruct (String.eqb "polygon_api_key" k); [reflexivity |].
    destruct (String.eqb "polygon_tier" k); [reflexivity |].
    destruct (String.eqb "theme" k); reflexivity. }
  split; [apply G |]. split.
  - intros H. unfold _init_schema, default_settings. cbn [fold_left fst snd].
    now repeat apply insert_or_ignore_NoDup.
  - set (t := _init_schema tbl).
    assert (P : forall k, In k (map fst default_settings) -> get_setting t k <> None).
    { intros k Hk. unfold t. rewrite G.
      destruct (get_setting tbl k); [discriminate |].
      simpl in Hk. destruct Hk as [<- | [<- | [<- | []]]]; discriminate. }
    unfold _init_schema at 1. unfold default_settings. cbn [fold_left fst snd].
    rewrite (insert_or_ignore_present t) by (apply P; simpl; tauto).
    rewrite (insert_or_ignore_present t) by (apply P; simpl; tauto).
    rewrite (insert_or_ignore_present t) by (apply P; simpl; tauto).
    reflexivity.
Qed.

Lemma init_schema_settings_witness :
  NoDup (map fst [("theme", "light")]%string) /\
  get_setting (_init_schema [("theme", "light")]%string) "theme" = Some "light"%string /\
  get_setting (_init_schema [("theme", "light")]%string) "polygon_tier"
  = Some "free"%string.
Proof.
  split; [repeat constructor; simpl; tauto |].
  destruct (init_schema_settings [("theme", "light")]%string) as (G & _).
  split; rewrite G; reflexivity.
Defined.

(** ** Snapshots *)

Lemma date_eqb_eq (a b : date) : date_eqb a b = true <-> a = b.
Proof.
  destruct a as [ya ma da], b as [yb mb db]. unfold date_eqb. cbn [year month day].
  rewrite !andb_true_iff, !Z.eqb_eq. split.
  - intros [[-> ->] ->]. reflexivity.
  - intros [= -> -> ->]. auto.
Qed.

Lemma iso_leb_refl (a : date) : iso_leb a a = true.
Proof. apply iso_leb_iff. lia. Qed.

Lemma iso_leb_total (a b : date) : iso_leb a b = false -> iso_leb b a = true.
Proof. rewrite iso_leb_false_iff, iso_leb_iff. lia. Qed.

Lemma iso_leb_trans (a b c : date) :
  iso_leb a b = true -> iso_leb b c = true -> iso_leb a c = true.
Proof. rewrite !iso_leb_iff. lia. Qed.

(** X14: saving a snapshot leaves exactly one row for today, holding the
    values just saved, and keeps the rows of every other day; a table with
    one row per day and distinct rowids stays so; and the snapshot is
    listed by [get_snapshots] for any window of [days >= 0] days that
    reaches back from the store's date to today. *)
Theorem save_snapshot_spec (tbl : SnapshotTable) (clk : Clock) (value pnl : Q) :
  let tbl' := save_snapshot tbl clk value pnl in
  let today := date_today clk in
  let row := mkSnapshot (snap_seq tbl + 1) today value pnl in
  filter (fun r => date_eqb (snapshot_date r) today) (snap_rows tbl') = [row] /\
  filter (fun r => negb (date_eqb (snapshot_date r) today)) (snap_rows tbl')
  = filter (fun r => negb (date_eqb (snapshot_date r) today)) (snap_rows tbl) /\
  (snapshots_ok tbl -> snapshots_ok tbl') /\
  (forall clk' days,
     valid_date today = true -> 0 <= days ->
     toordinal (ts_date (sql_now clk')) - days <= toordinal today ->
     In row (get_snapshots tbl' clk' days)).
Proof.
  cbv zeta. unfold save_snapshot. cbn [snap_rows snap_seq].
  set (today := date_today clk).
  set (other := fun r => negb (date_eqb (snapshot_date r) today)).
  assert (Etoday : date_eqb today today = true) by now apply date_eqb_eq.
  split; [| split; [| split]].
  - rewrite filter_app. cbn [filter snapshot_date]. rewrite Etoday.
    rewrite filter_none; [reflexivity |].
    intros r Hr. apply filter_In in Hr. destruct Hr as [_ Hr]. unfold other in Hr.
    now destruct (date_eqb (snapshot_date r) today).
  - rewrite filter_app. cbn [filter snapshot_date]. unfold other at 3.
    cbn [snapshot_date]. rewrite Etoday. cbn [negb].
    now rewrite filter_idem, app_nil_r.
  - intros (Hd & Hi & Hs). unfold snapshots_ok. cbn [snap_rows snap_seq].
    rewrite !map_app. cbn [map snapshot_date snap_id].
    split; [| split].
    + apply NoDup_snoc.
      * clear Hi Hs. induction (snap_rows tbl) as [| r l IH]; simpl; [constructor |].
        inversion Hd as [| ? ? Hr Hl]; subst.
        destruct (other r); simpl; [| now apply IH].
        constructor; [| now apply IH].
        intros Hin. apply Hr. apply in_map_iff in Hin.
        destruct Hin as (x & Ex & Hx). apply filter_In in Hx.
        apply in_map_iff. exists x. tauto.
      * intros Hin. apply in_map_iff in Hin. destruct Hin as (x & Ex & Hx).
        apply filter_In in Hx. destruct Hx as [_ Hx]. unfold other in Hx.
        rewrite Ex, Etoday in Hx. discriminate.
    + apply NoDup_snoc.
      * clear Hd Hs. induction (snap_rows tbl) as [| r l IH]; simpl; [constructor |].
        inversion Hi as [| ? ? Hr Hl]; subst.
        destruct (other r); simpl; [| now apply IH].
        constructor; [| now apply IH].
        intros Hin. apply Hr. apply in_map_iff in Hin.
        destruct Hin as (x & Ex & Hx). apply filter_In in Hx.
        apply in_map_iff. exists x. tauto.
      * intros Hin. apply in_map_iff in Hin. destruct Hin as (x & Ex & Hx).
        apply filter_In in Hx. destruct Hx as [Hx _]. apply Hs in Hx. lia.
    + intros r Hr. apply in_app_or in Hr. destruct Hr as [Hr | [<- | []]].
      * apply filter_In in Hr. destruct Hr as [Hr _]. apply Hs in Hr. lia.
      * cbn [snap_id]. lia.
  - intros clk' days Hv Hdays Hwin. unfold get_snapshots, days_ago.
    destruct (Z.ltb_spec days 0); [lia |].
    apply (Permutation_in _ (Permutation_sym (order_by_perm _ _))).
    apply filter_In. split; [apply in_or_app; right; now left |].
    cbn [snapshot_date snap_rows]. rewrite iso_leb_add_days by assumption.
    apply Z.leb_le. lia.
Qed.

Lemma save_snapshot_witness :
  valid_date (date_today clock_jan22) = true /\ 0 <= 365 /\
  toordinal (ts_date (sql_now clock_jan22)) - 365 <= toordinal (date_today clock_jan22) /\
  In (mkSnapshot 1 (mkdate 2026 1 22) (10000 # 1) (258 # 1))
     (get_snapshots
        (save_snapshot (mkSnapshotTable [] 0) clock_jan22 (10000 # 1) (258 # 1))
        clock_jan22 365).
Proof.
  split; [reflexivity |]. split; [lia |].
  assert (H : toordinal (ts_date (sql_now clock_jan22)) - 365
              <= toordinal (date_today clock_jan22)) by (apply Z.leb_le; reflexivity).
  split; [exact H |].
  destruct (save_snapshot_spec (mkSnapshotTable [] 0) clock_jan22 (10000 # 1) (258 # 1))
    as (_ & _ & _ & G).
  apply (G clock_jan22 365 eq_refl); [lia | exact H].
Defined.

(** X15: [get_snapshots] lists, oldest first, exactly the snapshots dated on
    or after the store's date minus [days] days; with a negative [days] it
    lists nothing. *)
Theorem get_snapshots_spec (tbl : SnapshotTable) (clk : Clock) (days : Z) :
  StronglySorted (fun a b => iso_leb (snapshot_date a) (snapshot_date b) = true)
    (get_snapshots tbl clk days) /\
  (days < 0 -> get_snapshots tbl clk days = []) /\
  (0 <= days ->
   forall r, valid_date (snapshot_date r) = true ->
     (In r (get_snapshots tbl clk days) <->
      In r (snap_rows tbl) /\
      toordinal (ts_date (sql_now clk)) - days <= toordinal (snapshot_date r))).
Proof.
  unfold get_snapshots, days_ago. split; [| split].
  - destruct (days <? 0); [constructor |].
    apply order_by_sorted.
    + intros x y. apply iso_leb_total.
    + intros x y z. apply iso_leb_trans.
  - intros H. apply Z.ltb_lt in H. now rewrite H.
  - intros H r Hv. destruct (Z.ltb_spec days 0); [lia |].
    split.
    + intros Hin. apply (Permutation_in _ (order_by_perm _ _)) in Hin.
      apply filter_In in Hin. destruct Hin as [Hin Hle].
      rewrite iso_leb_add_days in Hle by assumption. apply Z.leb_le in Hle.
      split; [assumption | lia].
    + intros [Hin Hle].
      apply (Permutation_in _ (Permutation_sym (order_by_perm _ _))).
      apply filter_In. split; [assumption |].
      rewrite iso_leb_add_days by assumption. apply Z.leb_le. lia.
Qed.

Lemma get_snapshots_witness :
  -1 < 0 /\
  get_snapshots
    (save_snapshot (mkSnapshotTable [] 0) clock_jan22 (10000 # 1) (258 # 1))
    clock_jan22 (-1) = [].
Proof.
  split; [lia |].
  apply (get_snapshots_spec _ clock_jan22 (-1)). lia.
Defined.

(** ** The portfolio tables and the portfolio card *)

Lemma order_by_of_sorted {A : Type} (before : A -> A -> bool) (l : list A) :
  StronglySorted (fun a b => before a b = true) l -> order_by before l = l.
Proof.
  induction 1 as [| x l Hs IH Hx]; [reflexivity |].
  simpl. rewrite IH. destruct l as [| y l']; [reflexivity |].
  simpl. inversion Hx as [| ? ? Hxy _]; subst. now rewrite Hxy.
Qed.

Lemma get_save_portfolio_info (tbl : list PortfolioInfo) (a b c : string) :
  get_portfolio_info (save_portfolio_info tbl a b c) = (a, b, c).
Proof.
  destruct tbl as [| row rest]; [reflexivity |].
  simpl. now rewrite Z.eqb_refl.
Qed.

(** X16: saving the portfolio texts and reading them back returns the texts
    saved; the table gets its single row on the first save and keeps its
    rows and their ids on every later one. *)
Theorem portfolio_info_round_trip (tbl : list PortfolioInfo) (a b c : string) :
  let tbl' := save_portfolio_info tbl a b c in
  get_portfolio_info tbl' = (a, b, c) /\
  map info_id tbl' = match tbl with
                     | [] => [1]
                     | _ => map info_id tbl
                     end /\
  (forall a' b' c',
     map info_id (save_portfolio_info tbl' a' b' c') = map info_id tbl' /\
     get_portfolio_info (save_portfolio_info tbl' a' b' c') = (a', b', c')).
Proof.
  assert (Hids : forall t x y z, t <> [] ->
            map info_id (save_portfolio_info t x y z) = map info_id t).
  { intros [| row rest] x y z Hne; [contradiction |].
    unfold save_portfolio_info. rewrite map_map. apply map_ext.
    intros r. now destruct (info_id r =? info_id row). }
  cbv zeta. split; [apply get_save_portfolio_info |]. split.
  - destruct tbl as [| row rest]; [reflexivity |]. now apply Hids.
  - intros a' b' c'. split; [| apply get_save_portfolio_info].
    apply Hids. now destruct tbl.
Qed.

Lemma insert_milestones_order (i seq : Z) (ms : list MilestoneDict) (m : Milestone) :
  In m (insert_milestones i seq ms) -> i <= sort_order m /\ seq < milestone_id m.
Proof.
  revert i seq. induction ms as [| d ms IH]; simpl; intros i seq H; [contradiction |].
  destruct H as [<- | H]; simpl; [lia |].
  apply IH in H. lia.
Qed.

Lemma insert_milestones_sorted (i seq : Z) (ms : list MilestoneDict) :
  StronglySorted (fun a b => (sort_order a <=? sort_order b) = true)
    (insert_milestones i seq ms).
Proof.
  revert i seq. induction ms as [| d ms IH]; intros i seq; simpl; constructor.
  - apply IH.
  - apply Forall_forall. intros m H. apply insert_milestones_order in H.
    simpl. apply Z.leb_le. lia.
Qed.

Lemma get_milestones_saved (tbl : MilestoneTable) (ms : list MilestoneDict) :
  get_milestones (save_milestones tbl ms)
  = insert_milestones 0 (milestone_seq tbl) ms.
Proof.
  unfold get_milestones, save_milestones. simpl.
  apply order_by_of_sorted, insert_milestones_sorted.
Qed.

Lemma insert_milestones_values (i seq : Z) (ms : list MilestoneDict) :
  map (fun m => (amount m, date_reached m, time_to_reach m))
    (insert_milestones i seq ms)
  = map (fun d => (set_opt (dict_amount d) 0%Q,
                   set_opt (dict_date_reached d) ""%string,
                   set_opt (dict_time_to_reach d) ""%string)) ms.
Proof.
  revert i seq. induction ms as [| d ms IH]; intros i seq; simpl; [reflexivity |].
  now rewrite IH.
Qed.

Lemma insert_milestones_keys (i seq : Z) (ms : list MilestoneDict) :
  map (fun m => (milestone_id m, sort_order m)) (insert_milestones i seq ms)
  = map (fun k => (seq + 1 + Z.of_nat k, i + Z.of_nat k))
      (List.seq 0 (List.length ms)).
Proof.
  revert i seq. induction ms as [| d ms IH]; intros i seq; [reflexivity |].
  cbn [insert_milestones List.length List.seq map milestone_id sort_order].
  f_equal; [f_equal; lia |].
  rewrite IH, <- seq_shift, map_map. apply map_ext. intros k. f_equal; lia.
Qed.

(** X17: [save_milestones] replaces the table by the milestones given, and
    [get_milestones] then returns exactly them, in the order given, with the
    defaults for missing keys, numbered 0, 1, ... and under ids that were
    never handed out before. *)
Theorem milestones_round_trip (tbl : MilestoneTable) (ms : list MilestoneDict) :
  let tbl' := save_milestones tbl ms in
  map (fun m => (amount m, date_reached m, time_to_reach m)) (get_milestones tbl')
  = map (fun d => (set_opt (dict_amount d) 0%Q,
                   set_opt (dict_date_reached d) ""%string,
                   set_opt (dict_time_to_reach d) ""%string)) ms /\
  map (fun m => (milestone_id m, sort_order m)) (get_milestones tbl')
  = map (fun k => (milestone_seq tbl + 1 + Z.of_nat k, Z.of_nat k))
      (List.seq 0 (List.length ms)) /\
  (forall m, In m (get_milestones tbl') ->
     milestone_seq tbl < milestone_id m <= milestone_seq tbl') /\
  get_milestones (save_milestones tbl' []) = [].
Proof.
  cbv zeta. rewrite get_milestones_saved. repeat split.
  - apply insert_milestones_values.
  - apply insert_milestones_keys.
  - apply insert_milestones_order in H. lia.
  - assert (E : In (milestone_id m, sort_order m)
                  (map (fun m => (milestone_id m, sort_order m))
                     (insert_milestones 0 (milestone_seq tbl) ms)))
      by (apply in_map_iff; now exists m).
    rewrite insert_milestones_keys in E. apply in_map_iff in E.
    destruct E as (k & E & Hk). apply in_seq in Hk.
    injection E as E _. simpl. lia.
Qed.

Lemma milestones_round_trip_witness :
  In (mkMilestone 4 0 "" "" 0)
    (get_milestones
       (save_milestones (mkMilestoneTable [] 3) [mkMilestoneDict None None None])) /\
  3 < milestone_id (mkMilestone 4 0 "" "" 0)
    <= milestone_seq
         (save_milestones (mkMilestoneTable [] 3) [mkMilestoneDict None None None]).
Proof.
  assert (H : In (mkMilestone 4 0 "" "" 0)
                (get_milestones
                   (save_milestones (mkMilestoneTable [] 3)
                      [mkMilestoneDict None None None])))
    by (left; reflexivity).
  split; [exact H |].
  exact (proj1 (proj2 (proj2
           (milestones_round_trip (mkMilestoneTable [] 3)
              [mkMilestoneDict None None None]))) _ H).
Defined.

Lemma is_empty_true (s : string) : is_empty s = true <-> s = ""%string.
Proof. destruct s; simpl; split; congruence. Qed.

Lemma positive_iff (v : Q) : positive v = true <-> (0 < v)%Q.
Proof.
  unfold positive. rewrite negb_true_iff. apply Qle_bool_false.
Qed.

(** X18: after the edit dialog is saved, the card shows the placeholder
    exactly when both texts are blank and no milestone row has a positive
    amount; otherwise it ends with the footer, its only grid lists the rows
    with a positive amount in dialog order with stripped texts, and the
    strategy text of the store is empty. *)
Theorem portfolio_card_after_save (format_currency : Q -> string)
    (st : PortfolioStore) (started_input philosophy_input : string)
    (milestone_widgets : list MilestoneWidgets) :
  let st' := _save st started_input philosophy_input milestone_widgets in
  let kept := filter (fun w => positive (widget_amount w)) milestone_widgets in
  let shown := PortfolioCard.refresh_data format_currency st' in
  get_portfolio_info (info_table st')
  = (strip started_input, strip philosophy_input, ""%string) /\
  map (fun m => (amount m, date_reached m, time_to_reach m))
    (get_milestones (milestone_table st'))
  = map (fun w => (widget_amount w, strip (widget_date w), strip (widget_time w)))
      kept /\
  (shown = [PortfolioCard.Placeholder] <->
   strip started_input = ""%string /\ strip philosophy_input = ""%string /\
   forall w, In w milestone_widgets -> (widget_amount w <= 0)%Q) /\
  (shown <> [PortfolioCard.Placeholder] ->
   last shown PortfolioCard.Placeholder = PortfolioCard.Footer /\
   (In (PortfolioCard.PhilosophyLabel (strip philosophy_input)) shown <->
    strip philosophy_input <> ""%string) /\
   forall started rows, In (PortfolioCard.Grid started rows) shown ->
     rows = map (fun w => (format_currency (widget_amount w),
                           strip (widget_date w), strip (widget_time w))) kept).
Proof.
  cbv zeta.
  set (kept := filter (fun w => positive (widget_amount w)) milestone_widgets).
  set (dicts := map (fun w => mkMilestoneDict (Some (widget_amount w))
                                (Some (strip (widget_date w)))
                                (Some (strip (widget_time w)))) kept).
  assert (Hinfo : get_portfolio_info
                    (info_table (_save st started_input philosophy_input
                                   milestone_widgets))
                  = (strip started_input, strip philosophy_input, ""%string))
    by apply get_save_portfolio_info.
  assert (Hms : get_milestones
                  (milestone_table (_save st started_input philosophy_input
                                      milestone_widgets))
                = insert_milestones 0 (milestone_seq (milestone_table st)) dicts)
    by apply get_milestones_saved.
  assert (Hvals : map (fun m => (amount m, date_reached m, time_to_reach m))
                    (insert_milestones 0 (milestone_seq (milestone_table st)) dicts)
                  = map (fun w => (widget_amount w, strip (widget_date w),
                                   strip (widget_time w))) kept).
  { rewrite insert_milestones_values. unfold dicts. rewrite map_map. reflexivity. }
  assert (Hrows : map (fun m => (format_currency (amount m), date_reached m,
                                 time_to_reach m))
                    (insert_milestones 0 (milestone_seq (milestone_table st)) dicts)
                  = map (fun w => (format_currency (widget_amount w),
                                   strip (widget_date w), strip (widget_time w)))
                      kept).
  { transitivity
      (map (fun x : Q * string * string =>
              (format_currency (fst (fst x)), snd (fst x), snd x))
         (map (fun m => (amount m, date_reached m, time_to_reach m))
            (insert_milestones 0 (milestone_seq (milestone_table st)) dicts))).
    - now rewrite map_map.
    - rewrite Hvals, map_map. reflexivity. }
  assert (Hnil : kept = [] <->
                 forall w, In w milestone_widgets -> (widget_amount w <= 0)%Q).
  { unfold kept. split.
    - intros E w Hw.
      destruct (Qlt_le_dec 0 (widget_amount w)) as [Hpos | Hle]; [| exact Hle].
      exfalso. apply positive_iff in Hpos.
      assert (Hin : In w (filter (fun w => positive (widget_amount w))
                            milestone_widgets))
        by (apply filter_In; now split).
      rewrite E in Hin. contradiction.
    - intros H. apply filter_none. intros w Hw.
      unfold positive. apply negb_false_iff, Qle_bool_iff, H, Hw. }
  assert (Hempty : insert_milestones 0 (milestone_seq (milestone_table st)) dicts = []
                   <-> kept = []).
  { unfold dicts. destruct kept; simpl; split; congruence. }
  split; [exact Hinfo |]. split; [now rewrite Hms |].
  unfold PortfolioCard.refresh_data. rewrite Hinfo, Hms, Hrows.
  destruct (insert_milestones 0 (milestone_seq (milestone_table st)) dicts)
    as [| m0 rest] eqn:Eins.
  - assert (Hk : kept = []) by now apply Hempty.
    destruct (strip started_input) as [| c1 s1] eqn:Es,
             (strip philosophy_input) as [| c2 s2] eqn:Ep; simpl.
    + split; [split; [intros _; repeat split; now apply Hnil | reflexivity]
             | intros H; now contradiction H].
    + split; [split; [discriminate | intros (_ & H & _); discriminate] |].
      intros _. split; [reflexivity |]. split.
      * split; [discriminate | intros _; now left].
      * intros started rows [H | [H | H]]; try discriminate; contradiction.
    + split; [split; [discriminate | intros (H & _); discriminate] |].
      intros _. split; [reflexivity |]. split.
      * split; [intros [H | [H | H]]; try discriminate; contradiction | congruence].
      * intros started rows [H | [H | H]]; try discriminate; [| contradiction].
        now injection H as _ <-.
    + split; [split; [discriminate | intros (H & _); discriminate] |].
      intros _. split; [reflexivity |]. split.
      * split; [discriminate | intros _; now left].
      * intros started rows [H | [H | [H | H]]]; try discriminate; [| contradiction].
        now injection H as _ <-.
  - assert (Hk : kept <> []) by (intros E; apply Hempty in E; discriminate).
    destruct (strip started_input) as [| c1 s1] eqn:Es,
             (strip philosophy_input) as [| c2 s2] eqn:Ep; simpl.
    all: split;
      [split; [discriminate | intros (_ & _ & H); apply Hnil in H; contradiction] |].
    all: intros _; split; [reflexivity |]; split.
    all: try (split; [intros [H | [H | H]]; try discriminate; contradiction
                     | congruence]).
    all: try (split; [discriminate | intros _; now left]).
    all: intros started rows H; simpl in H;
      repeat (destruct H as [H | H]; try discriminate; try contradiction;
              try (now injection H as _ <-)).
Qed.

Lemma portfolio_card_after_save_witness :
  PortfolioCard.refresh_data (fun _ => "$"%string)
    (_save sample_portfolio_store " May 2015 " "" sample_milestone_widgets)
  <> [PortfolioCard.Placeholder] /\
  last (PortfolioCard.refresh_data (fun _ => "$"%string)
          (_save sample_portfolio_store " May 2015 " "" sample_milestone_widgets))
    PortfolioCard.Placeholder
  = PortfolioCard.Footer.
Proof.
  assert (H : PortfolioCard.refresh_data (fun _ => "$"%string)
                (_save sample_portfolio_store " May 2015 " ""
                   sample_milestone_widgets)
              <> [PortfolioCard.Placeholder])
    by (vm_compute; discriminate).
  split; [exact H |].
  exact (proj1 (proj2 (proj2 (proj2
           (portfolio_card_after_save (fun _ => "$"%string) sample_portfolio_store
              " May 2015 " "" sample_milestone_widgets))) H)).
Defined.

(** ** The premium card *)

(** What the card finds under a year in [yearly]: the realized premium of the
    trades opened in that year, zero for a year without any. *)
Lemma yearly_get (db : Database) (clk : Clock) (s : Summary) (y : Z) :
  get_premium_summary db clk = Ok s ->
  dict_get (yearly s) y 0%Q
  = realized_premium (fun t => year (opened_on t) =? y) (trades db).
Proof.
  intros Hs. destruct (yearly_rows db clk) as (s' & Hs' & Hy & _).
  rewrite Hs in Hs'. injection Hs' as <-.
  set (key := fun t => strftime_Y (opened_at t)) in *.
  set (groups := select_premium_group_by Z.eq_dec key (fun _ => true) (trades db)) in *.
  assert (Hperm : Permutation (yearly s) groups)
    by (rewrite Hy; apply order_by_perm).
  unfold dict_get. destruct (find _ (yearly s)) as [[k v] |] eqn:E.
  - apply find_some in E. destruct E as [Hin Hk]. simpl in Hk.
    apply Z.eqb_eq in Hk. subst k.
    apply (Permutation_in _ Hperm), group_row in Hin. destruct Hin as [-> _].
    apply realized_premium_ext. intros t _. unfold key_is, key. simpl.
    change (strftime_Y (opened_at t)) with (year (opened_on t)).
    destruct (Z.eq_dec (year (opened_on t)) y) as [Ey | Ny].
    + symmetry. now apply Z.eqb_eq.
    + symmetry. now apply Z.eqb_neq.
  - unfold realized_premium. rewrite filter_none; [reflexivity |].
    intros t Ht.
    destruct (realized t) eqn:Er; [| reflexivity].
    destruct (Z.eqb_spec (year (opened_on t)) y) as [Ey | Ny]; [| reflexivity].
    exfalso.
    assert (Hkey : In (key t) (map fst groups)).
    { unfold groups. rewrite group_keys. apply nodup_In, in_map.
      apply filter_In. split; [exact Ht |]. now rewrite Er. }
    apply in_map_iff in Hkey. destruct Hkey as (row & Erow & Hrow).
    apply (Permutation_in _ (Permutation_sym Hperm)) in Hrow.
    apply (find_none _ _ E) in Hrow.
    apply Z.eqb_neq in Hrow. apply Hrow. rewrite Erow. exact Ey.
Qed.

Lemma positive_zero (v : Q) : v == 0 -> positive v = false.
Proof.
  intros E. unfold positive. apply negb_false_iff, Qle_bool_iff.
  rewrite E. apply Qle_refl.
Qed.

(** X19: the premium card fed with the summary of the ledger.  Without a
    CC/CSP trade every period shows a dash under the label [Week 1] and the
    current year, and every history row is hidden.  With an anchor the YTD
    label names the anchor's year; from the anchor's day on the week row is
    labelled with the week number and the three periods show their amounts,
    before it the week row is [Week 1] with a dash.  A history row is visible
    exactly when the realized premium of its year is positive, and then
    shows that premium. *)
Theorem premium_card_spec (format_currency : Q -> string) (db : Database)
    (clk : Clock) (card : PremiumCard.Card) :
  ledger_wf db ->
  exists s,
    get_premium_summary db clk = Ok s /\
    let today := date_today clk in
    let c := PremiumCard.update_data format_currency card today s in
    (no_anchor db ->
       PremiumCard.label_text (PremiumCard.week_label c) = "Week 1"%string /\
       PremiumCard.value_text (PremiumCard.week_label c) = dash /\
       PremiumCard.value_text (PremiumCard.month_label c) = dash /\
       PremiumCard.label_text (PremiumCard.ytd_label c)
       = (str (year today) ++ " YTD")%string /\
       PremiumCard.value_text (PremiumCard.ytd_label c) = dash /\
       PremiumCard.value_text (PremiumCard.projected_label c)
       = ("Year-End Projection: " ++ dash)%string /\
       forall e, In e (PremiumCard.year_widgets c) ->
                 PremiumCard.visible (snd e) = false) /\
    (forall a, is_anchor db a ->
       PremiumCard.label_text (PremiumCard.ytd_label c)
       = (str (year a) ++ " YTD")%string /\
       (toordinal a <= toordinal today ->
          PremiumCard.label_text (PremiumCard.week_label c)
          = ("Week " ++ str ((toordinal today - toordinal a) / 7 + 1))%string /\
          PremiumCard.value_text (PremiumCard.week_label c)
          = format_currency (week s) /\
          PremiumCard.value_text (PremiumCard.month_label c)
          = format_currency (month_total s) /\
          PremiumCard.value_text (PremiumCard.ytd_label c)
          = format_currency (ytd s)) /\
       (toordinal today < toordinal a ->
          PremiumCard.label_text (PremiumCard.week_label c) = "Week 1"%string /\
          PremiumCard.value_text (PremiumCard.week_label c) = dash)) /\
    map fst (PremiumCard.year_widgets c) = map fst (PremiumCard.year_widgets card) /\
    (forall y row, In (y, row) (PremiumCard.year_widgets c) ->
       let total := realized_premium (fun t => year (opened_on t) =? y) (trades db) in
       (PremiumCard.visible row = true <-> (0 < total)%Q) /\
       (PremiumCard.visible row = true ->
        PremiumCard.value_text row = format_currency total)).
Proof.
  intros W.
  destruct (get_premium_summary_fields db clk)
    as (s & Hs & _ & Hwn & Hm & Hytd & _ & Hf & Hp).
  exists s. split; [exact Hs |]. cbv zeta.
  assert (Hget := fun y => yearly_get db clk s y Hs).
  unfold PremiumCard.update_data. cbn [PremiumCard.week_label PremiumCard.month_label
    PremiumCard.ytd_label PremiumCard.projected_label PremiumCard.year_widgets].
  rewrite Hwn, Hf.
  split; [| split; [| split]].
  - intros Hno.
    assert (E : get_first_trade_date db = None) by now apply first_trade_date_none.
    assert (Ew : get_current_week_number db clk = 0)
      by (unfold get_current_week_number; now rewrite E).
    rewrite E, Ew. cbn [Z.ltb Z.compare orb].
    rewrite realized_premium_no_anchor in Hm, Hytd by assumption.
    rewrite Hm, Hytd.
    assert (Ep : positive (projected s) = false).
    { apply positive_zero. rewrite Hp, E. apply linear_projection_zero.
      now rewrite Hytd. }
    rewrite Ep. change (positive 0) with false. cbn [orb].
    repeat split.
    intros e He. apply in_map_iff in He. destruct He as (e0 & <- & _).
    rewrite Hget, realized_premium_no_anchor by assumption.
    reflexivity.
  - intros a Ha.
    destruct (anchor_first_trade_date db a W Ha) as (m & E & _).
    assert (m = a) by (eapply anchor_unique; eauto). subst m.
    assert (Ew : get_current_week_number db clk
                 = (toordinal (date_today clk) - toordinal a) / 7 + 1)
      by (unfold get_current_week_number, days_between; now rewrite E).
    rewrite E, Ew.
    split; [| split].
    + destruct (positive (ytd s)
                || (0 <? (toordinal (date_today clk) - toordinal a) / 7 + 1));
        reflexivity.
    + intros Hle.
      assert (Hpos : (0 <? (toordinal (date_today clk) - toordinal a) / 7 + 1) = true).
      { apply Z.ltb_lt.
        pose proof (Z.div_pos (toordinal (date_today clk) - toordinal a) 7). lia. }
      rewrite Hpos, !orb_true_r. repeat split.
    + intros Hlt.
      assert (Hneg : (0 <? (toordinal (date_today clk) - toordinal a) / 7 + 1) = false).
      { apply Z.ltb_ge.
        assert ((toordinal (date_today clk) - toordinal a) / 7 < 0)
          by (apply Z.div_lt_upper_bound; lia).
        lia. }
      rewrite Hneg. split; reflexivity.
  - rewrite map_map. apply map_ext. intros e.
    now destruct (positive (dict_get (yearly s) (fst e) 0)).
  - intros y row Hin. cbv zeta.
    apply in_map_iff in Hin. destruct Hin as (e & He & _).
    rewrite Hget in He.
    destruct (positive (realized_premium (fun t => year (opened_on t) =? fst e)
                          (trades db))) eqn:Epos;
      injection He as <- <-; cbn [PremiumCard.visible PremiumCard.value_text].
    + apply positive_iff in Epos. split; [tauto | reflexivity].
    + split; [| discriminate].
      split; [discriminate |].
      intros H. apply positive_iff in H. congruence.
Qed.

Lemma premium_card_witness :
  ledger_wf ledger_jan /\
  exists s,
    get_premium_summary ledger_jan clock_jan22 = Ok s /\
    PremiumCard.label_text
      (PremiumCard.ytd_label
         (PremiumCard.update_data (fun _ => "$"%string) PremiumCard.setup_ui
            (date_today clock_jan22) s))
    = "2026 YTD"%string.
Proof.
  split; [exact ledger_jan_wf |].
  destruct (premium_card_spec (fun _ => "$"%string) ledger_jan clock_jan22
              PremiumCard.setup_ui ledger_jan_wf) as (s & Hs & _ & Ha & _).
  exists s. split; [exact Hs |].
  exact (proj1 (Ha _ ledger_jan_anchor)).
Defined.

(** ** The top performers card *)

Lemma firstn_sql_limit {A : Type} (limit : Z) (l : list A) :
  firstn 5 (sql_limit limit l)
  = sql_limit (if (0 <=? limit) && (limit <? 5) then limit else 5) l.
Proof.
  unfold sql_limit.
  destruct (Z.ltb_spec limit 0) as [Hneg | Hnn].
  - destruct (Z.leb_spec 0 limit); [lia |]. reflexivity.
  - destruct (Z.leb_spec 0 limit); [| lia]. cbn [andb].
    rewrite firstn_firstn.
    destruct (Z.ltb_spec limit 5) as [Hlt | Hge].
    + destruct (Z.ltb_spec limit 0); [lia |]. f_equal. lia.
    + cbn [Z.ltb Z.compare]. f_equal. change (Z.to_nat 5) with 5%nat. lia.
Qed.

(** X20: each column of the top performers card shows at most five rows,
    in the order of the ranking.  Fed with the rankings for
    a limit below five it shows them all; for a larger limit, or for no
    limit at all (a negative one), it shows what the ranking for limit five
    returns. *)
Theorem top_performers_card_spec (format_whole : Q -> string) (db : Database)
    (clk : Clock) (limit : Z) :
  let shown :=
    TopPerformersCard.update_data format_whole
      (get_top_performers db clk "mtd" limit)
      (get_top_performers db clk "ytd" limit) in
  let column period :=
    map (fun p => TopPerformersCard._create_performer_row format_whole (fst p) (snd p))
      (get_top_performers db clk period
         (if (0 <=? limit) && (limit <? 5) then limit else 5)) in
  shown = (column "mtd"%string, column "ytd"%string) /\
  (List.length (fst shown) <= 5)%nat /\ (List.length (snd shown) <= 5)%nat /\
  (no_anchor db -> shown = ([], [])).
Proof.
  cbv zeta. unfold TopPerformersCard.update_data.
  assert (E : forall period,
            firstn 5 (get_top_performers db clk period limit)
            = get_top_performers db clk period
                (if (0 <=? limit) && (limit <? 5) then limit else 5)).
  { intros period. unfold get_top_performers. apply firstn_sql_limit. }
  split; [now rewrite !E |].
  cbn [fst snd]. rewrite !length_map.
  split; [apply firstn_le_length |]. split; [apply firstn_le_length |].
  intros Hno. now rewrite !top_performers_no_anchor.
Qed.

Lemma top_performers_card_witness :
  no_anchor ledger_assigned /\
  TopPerformersCard.update_data (fun _ => "0"%string)
    (get_top_performers ledger_assigned clock_jan22 "mtd" 5)
    (get_top_performers ledger_assigned clock_jan22 "ytd" 5)
  = ([], []).
Proof.
  split; [exact ledger_assigned_no_anchor |].
  exact (proj2 (proj2 (proj2
           (top_performers_card_spec (fun _ => "0"%string) ledger_assigned
              clock_jan22 5))) ledger_assigned_no_anchor).
Defined.

(** ** The trades of one position *)

(** X21: in a consistent store the trades listed for a position are exactly
    the trades of the ledger recorded under that position's ticker, newest
    first; an id that no position has lists nothing. *)
Theorem trades_for_position_spec (db : Database) (p : Position) :
  store_ok db -> In p (positions db) ->
  let rows := get_trades_for_position db (pos_id p) in
  StronglySorted (fun a b => ts_leb (opened_at b) (opened_at a) = true) rows /\
  (forall t, In t rows <-> In t (trades db) /\ ticker t = pos_ticker p) /\
  (forall pid, (forall q, In q (positions db) -> pos_id q <> pid) ->
     get_trades_for_position db pid = []).
Proof.
  intros (Hids & Htks & _ & _ & Hjoin) Hp. cbv zeta.
  unfold get_trades_for_position.
  split; [apply newest_first_sorted |]. split.
  - intros t. split.
    + intros Hin. apply (Permutation_in _ (newest_first_perm _)) in Hin.
      apply filter_In in Hin. destruct Hin as [Ht Hid]. apply Z.eqb_eq in Hid.
      split; [exact Ht |].
      destruct (Hjoin t Ht) as (q & Hq & Eid & Etk).
      assert (q = p)
        by (apply (NoDup_map_inj pos_id (positions db) q p Hids Hq Hp); congruence).
      subst q. now symmetry.
    + intros [Ht Etk].
      apply (Permutation_in _ (Permutation_sym (newest_first_perm _))).
      apply filter_In. split; [exact Ht |]. apply Z.eqb_eq.
      destruct (Hjoin t Ht) as (q & Hq & Eid & Etk').
      assert (q = p)
        by (apply (NoDup_map_inj pos_ticker (positions db) q p Htks Hq Hp);
            congruence).
      subst q. now symmetry.
  - intros pid Hpid. rewrite filter_none; [reflexivity |].
    intros t Ht. apply Z.eqb_neq.
    destruct (Hjoin t Ht) as (q & Hq & Eid & _).
    rewrite <- Eid. now apply Hpid.
Qed.

Lemma trades_for_position_witness :
  store_ok sample_store /\ In sample_position (positions sample_store) /\
  forall t,
    In t (get_trades_for_position sample_store (pos_id sample_position)) <->
    In t (trades sample_store) /\ ticker t = pos_ticker sample_position.
Proof.
  split; [exact sample_store_ok |].
  split; [left; reflexivity |].
  exact (proj1 (proj2
           (trades_for_position_spec sample_store sample_position sample_store_ok
              (or_introl eq_refl)))).
Defined.
